(** * Finora webhook receiver ([app.py]): signature verifier and endpoint handler

    A shallow embedding of the hardened BitGo webhook receiver of [app.py]
    and the properties its specification states about it.  ([main.py] is an
    unhardened copy of the same endpoint; it is embedded in [Main], and the
    specification's properties are about [app.py].)

    Conventions of the embedding.
    - [bytes] values (the raw request body, HMAC keys and digests) are
      [list byte].
    - Header values are text whose characters are the code points U+0000 to
      U+00FF: a WSGI server hands header bytes to the application decoded as
      Latin-1.  They are [list ascii] ([hstr]), one [ascii] per character.
    - Every other Python [str] (an environment value, the decoded request
      body, a JSON string) is a list of Unicode code points ([pystr]).
    - A Python exception that the code does not catch is an explicit outcome
      ([Raise]); Flask answers such a request with status 500.
    - Library functions the code calls ([hmac.new], [hashlib.sha256],
      [bytes.decode], [str.encode], [json.loads], [hmac.compare_digest]) are
      embedded by what their documentation and standards say they compute;
      SHA-256 and HMAC are checked below against published test vectors.
      [json.loads] follows CPython's scanner, its recursion limit and its
      limit on the digits of an [int] included. *)

From Stdlib.Strings Require Import String Ascii Byte.
From Stdlib Require Import ZArith NArith List Bool Lia.
Import ListNotations.

Local Open Scope Z_scope.

(** ** Bytes and 32-bit words *)

Definition bytes := list byte.

Definition byte_to_Z (b : byte) : Z := Z.of_N (Byte.to_N b).

Definition byte_of_Z (z : Z) : byte :=
  match Byte.of_N (Z.to_N (z mod 256)) with
  | Some b => b
  | None => x00
  end.

Definition bytes_of_string (s : string) : bytes := list_byte_of_string s.

Module Sha256.

(** FIPS 180-4, SHA-256.  A word is a [Z] in [0, 2^32); every addition is
    reduced modulo 2^32. *)

Definition wrap (x : Z) : Z := x mod 2 ^ 32.
Definition add32 (x y : Z) : Z := wrap (x + y).
Definition rotr (n x : Z) : Z :=
  Z.lor (Z.shiftr x n) (wrap (Z.shiftl x (32 - n))).
Definition not32 (x : Z) : Z := 2 ^ 32 - 1 - x.

Definition Ch (x y z : Z) : Z := Z.lxor (Z.land x y) (Z.land (not32 x) z).
Definition Maj (x y z : Z) : Z :=
  Z.lxor (Z.lxor (Z.land x y) (Z.land x z)) (Z.land y z).
Definition bsig0 (x : Z) : Z := Z.lxor (Z.lxor (rotr 2 x) (rotr 13 x)) (rotr 22 x).
Definition bsig1 (x : Z) : Z := Z.lxor (Z.lxor (rotr 6 x) (rotr 11 x)) (rotr 25 x).
Definition ssig0 (x : Z) : Z := Z.lxor (Z.lxor (rotr 7 x) (rotr 18 x)) (Z.shiftr x 3).
Definition ssig1 (x : Z) : Z := Z.lxor (Z.lxor (rotr 17 x) (rotr 19 x)) (Z.shiftr x 10).

(** Round constants: the first 32 bits of the fractional parts of the cube
    roots of the first 64 primes. *)
Definition round_constants : list Z :=
  [ 0x428A2F98; 0x71374491; 0xB5C0FBCF; 0xE9B5DBA5;
    0x3956C25B; 0x59F111F1; 0x923F82A4; 0xAB1C5ED5;
    0xD807AA98; 0x12835B01; 0x243185BE; 0x550C7DC3;
    0x72BE5D74; 0x80DEB1FE; 0x9BDC06A7; 0xC19BF174;
    0xE49B69C1; 0xEFBE4786; 0x0FC19DC6; 0x240CA1CC;
    0x2DE92C6F; 0x4A7484AA; 0x5CB0A9DC; 0x76F988DA;
    0x983E5152; 0xA831C66D; 0xB00327C8; 0xBF597FC7;
    0xC6E00BF3; 0xD5A79147; 0x06CA6351; 0x14292967;
    0x27B70A85; 0x2E1B2138; 0x4D2C6DFC; 0x53380D13;
    0x650A7354; 0x766A0ABB; 0x81C2C92E; 0x92722C85;
    0xA2BFE8A1; 0xA81A664B; 0xC24B8B70; 0xC76C51A3;
    0xD192E819; 0xD6990624; 0xF40E3585; 0x106AA070;
    0x19A4C116; 0x1E376C08; 0x2748774C; 0x34B0BCB5;
    0x391C0CB3; 0x4ED8AA4A; 0x5B9CCA4F; 0x682E6FF3;
    0x748F82EE; 0x78A5636F; 0x84C87814; 0x8CC70208;
    0x90BEFFFA; 0xA4506CEB; 0xBEF9A3F7; 0xC67178F2 ].

(** The eight working variables, also the running hash value. *)
Record regs := Regs { ra : Z; rb : Z; rc : Z; rd : Z; re : Z; rf : Z; rg : Z; rh : Z }.

(** Initial hash value: the first 32 bits of the fractional parts of the
    square roots of the first 8 primes. *)
Definition initial : regs :=
  Regs 0x6A09E667 0xBB67AE85 0x3C6EF372 0xA54FF53A
       0x510E527F 0x9B05688C 0x1F83D9AB 0x5BE0CD19.

(** Big-endian 32-bit words of a block. *)
Fixpoint words_of (bs : bytes) : list Z :=
  match bs with
  | b0 :: b1 :: b2 :: b3 :: rest =>
      (byte_to_Z b0 * 2 ^ 24 + byte_to_Z b1 * 2 ^ 16
       + byte_to_Z b2 * 2 ^ 8 + byte_to_Z b3) :: words_of rest
  | _ => []
  end.

(** Message schedule.  [sched] holds W(t-1), W(t-2), ... most recent first;
    [extend n] adds W(t) = ssig1 W(t-2) + W(t-7) + ssig0 W(t-15) + W(t-16)
    [n] times. *)
Definition next_word (sched : list Z) : Z :=
  add32 (add32 (ssig1 (nth 1 sched 0)) (nth 6 sched 0))
        (add32 (ssig0 (nth 14 sched 0)) (nth 15 sched 0)).

Fixpoint extend (n : nat) (sched : list Z) : list Z :=
  match n with
  | O => sched
  | S n' => extend n' (next_word sched :: sched)
  end.

Definition schedule (block : bytes) : list Z :=
  rev (extend 48 (rev (words_of block))).

Definition round (r : regs) (kw : Z * Z) : regs :=
  let (k, w) := kw in
  let t1 := add32 (add32 (add32 (add32 (rh r) (bsig1 (re r))) (Ch (re r) (rf r) (rg r))) k) w in
  let t2 := add32 (bsig0 (ra r)) (Maj (ra r) (rb r) (rc r)) in
  Regs (add32 t1 t2) (ra r) (rb r) (rc r) (add32 (rd r) t1) (re r) (rf r) (rg r).

Definition compress (h : regs) (block : bytes) : regs :=
  let r := fold_left round (combine round_constants (schedule block)) h in
  Regs (add32 (ra h) (ra r)) (add32 (rb h) (rb r)) (add32 (rc h) (rc r))
       (add32 (rd h) (rd r)) (add32 (re h) (re r)) (add32 (rf h) (rf r))
       (add32 (rg h) (rg r)) (add32 (rh h) (rh r)).

(** Padding: a 1 bit, zero bits up to 56 modulo 64 bytes, then the message
    length in bits as a 64-bit big-endian integer. *)
Definition be_bytes (n : nat) (x : Z) : bytes :=
  map (fun i => byte_of_Z (Z.shiftr x (8 * Z.of_nat i))) (rev (seq 0 n)).

Definition pad (msg : bytes) : bytes :=
  let len := Z.of_nat (length msg) in
  msg ++ [x80] ++ repeat x00 (Z.to_nat ((55 - len) mod 64)) ++ be_bytes 8 (8 * len).

Fixpoint blocks (n : nat) (h : regs) (bs : bytes) : regs :=
  match n with
  | O => h
  | S n' => blocks n' (compress h (firstn 64 bs)) (skipn 64 bs)
  end.

Definition word_bytes (x : Z) : bytes := be_bytes 4 x.

Definition digest (msg : bytes) : bytes :=
  let p := pad msg in
  let r := blocks (Nat.div (length p) 64) initial p in
  word_bytes (ra r) ++ word_bytes (rb r) ++ word_bytes (rc r) ++ word_bytes (rd r)
  ++ word_bytes (re r) ++ word_bytes (rf r) ++ word_bytes (rg r) ++ word_bytes (rh r).

End Sha256.

Module Hmac.

(** RFC 2104 with SHA-256 (block size 64 bytes): what
    [hmac.new(key, msg, hashlib.sha256)] computes. *)

Definition block_size : nat := 64.

Definition xor_with (c : Z) (bs : bytes) : bytes :=
  map (fun b => byte_of_Z (Z.lxor (byte_to_Z b) c)) bs.

Definition block_key (key : bytes) : bytes :=
  let k := if Nat.ltb block_size (length key) then Sha256.digest key else key in
  k ++ repeat x00 (block_size - length k).

Definition digest (key msg : bytes) : bytes :=
  let k := block_key key in
  Sha256.digest (xor_with 0x5C k ++ Sha256.digest (xor_with 0x36 k ++ msg)).

End Hmac.

(** ** Python values: text, exceptions *)

(** Header text: one [ascii] per character, code points U+0000 to U+00FF. *)
Definition hstr := list ascii.

(** General text: Unicode code points. *)
Definition pystr := list N.

Definition hs (s : string) : hstr := list_ascii_of_string s.
Definition code (c : ascii) : N := N_of_ascii c.
Definition ustr (s : string) : pystr := map code (hs s).

(** The exceptions the modelled code can raise. *)
Inductive exn : Type :=
| UnicodeEncodeError
| UnicodeDecodeError
| TypeError
| AttributeError
| JSONDecodeError
| RecursionError
| ValueError.

Inductive result (A : Type) : Type :=
| Ok (a : A)
| Raise (e : exn).
Arguments Ok {A} a.
Arguments Raise {A} e.

Module Str.

Local Open Scope N_scope.

(** [str.isspace] of one character, which is also what [str.strip()]
    removes: the ASCII white space of CPython and the Unicode characters of
    type WS, B or S. *)
Definition isspace (cp : N) : bool :=
  ((0x09 <=? cp) && (cp <=? 0x0D))
  || ((0x1C <=? cp) && (cp <=? 0x20))
  || (cp =? 0x85) || (cp =? 0xA0) || (cp =? 0x1680)
  || ((0x2000 <=? cp) && (cp <=? 0x200A))
  || (cp =? 0x2028) || (cp =? 0x2029) || (cp =? 0x202F)
  || (cp =? 0x205F) || (cp =? 0x3000).

Section Strip.
Context {A : Type} (space : A -> bool).

Fixpoint lstrip (s : list A) : list A :=
  match s with
  | c :: rest => if space c then lstrip rest else s
  | [] => []
  end.

Definition rstrip (s : list A) : list A := rev (lstrip (rev s)).

(** [s.strip()] *)
Definition strip (s : list A) : list A := rstrip (lstrip s).
End Strip.

(** [s.strip()] of header text. *)
Definition hstrip (s : hstr) : hstr := strip (fun c => isspace (code c)) s.

(** [c in s] for a one-character [c]. *)
Definition contains_char (c : ascii) (s : hstr) : bool :=
  existsb (Ascii.eqb c) s.

(** [s.split(c, 1)] for a one-character separator: the text before the
    first [c] and the text after it; without a [c] the whole of [s] and
    nothing. *)
Fixpoint split_once (c : ascii) (s : hstr) : hstr * option hstr :=
  match s with
  | [] => ([], None)
  | x :: rest =>
      if Ascii.eqb c x then ([], Some rest)
      else let (before, after) := split_once c rest in (x :: before, after)
  end.

(** [str.lower()] of one Latin-1 character: A-Z and the capital letters
    U+00C0 to U+00DE (without the multiplication sign U+00D7) move up by
    32; nothing else changes. *)
Definition lower_char (c : ascii) : ascii :=
  let n := code c in
  if ((0x41 <=? n) && (n <=? 0x5A))
     || ((0xC0 <=? n) && (n <=? 0xDE) && negb (n =? 0xD7))
  then ascii_of_N (n + 32) else c.

Definition lower (s : hstr) : hstr := map lower_char s.

(** [str.isascii()] *)
Definition isascii (s : hstr) : bool := forallb (fun c => code c <? 128) s.

Fixpoint eqb (a b : hstr) : bool :=
  match a, b with
  | [], [] => true
  | x :: a', y :: b' => Ascii.eqb x y && eqb a' b'
  | _, _ => false
  end.

(** [s.startswith(sub)] *)
Fixpoint starts_with (sub s : hstr) : bool :=
  match sub, s with
  | [], _ => true
  | x :: sub', y :: s' => Ascii.eqb x y && starts_with sub' s'
  | _ :: _, [] => false
  end.

(** [sub in s] *)
Fixpoint contains (sub s : hstr) : bool :=
  starts_with sub s ||
  match s with
  | [] => false
  | _ :: rest => contains sub rest
  end.

Definition hexdigit (d : N) : ascii :=
  nth (N.to_nat d) (hs "0123456789abcdef") "0"%char.

(** [bytes.hex()], the text of [HMAC.hexdigest()]: two lower-case
    hexadecimal digits per byte. *)
Definition hex (bs : bytes) : hstr :=
  flat_map (fun b => let n := Byte.to_N b in [hexdigit (n / 16); hexdigit (n mod 16)]) bs.

(** [s.encode()]: UTF-8.  A surrogate (which [os.environ] produces for an
    undecodable byte) cannot be encoded. *)
Definition cont (x : N) : byte := byte_of_Z (Z.of_N (0x80 + x mod 64)).

Definition encode_char (cp : N) : option bytes :=
  if cp <? 0x80 then Some [byte_of_Z (Z.of_N cp)]
  else if cp <? 0x800 then
    Some [byte_of_Z (Z.of_N (0xC0 + cp / 64)); cont cp]
  else if cp <? 0x10000 then
    if (0xD800 <=? cp) && (cp <=? 0xDFFF) then None
    else Some [byte_of_Z (Z.of_N (0xE0 + cp / 4096)); cont (cp / 64); cont cp]
  else if cp <? 0x110000 then
    Some [byte_of_Z (Z.of_N (0xF0 + cp / 262144)); cont (cp / 4096); cont (cp / 64); cont cp]
  else None.

Fixpoint encode_utf8 (s : pystr) : option bytes :=
  match s with
  | [] => Some []
  | cp :: rest =>
      match encode_char cp, encode_utf8 rest with
      | Some b, Some bs => Some (b ++ bs)
      | _, _ => None
      end
  end.

Definition encode (s : pystr) : result bytes :=
  match encode_utf8 s with
  | Some bs => Ok bs
  | None => Raise UnicodeEncodeError
  end.

End Str.

(** [hmac.compare_digest(a, b)] on two [str]: both must be ASCII, otherwise
    [TypeError]; the value is whether they are equal.  (How long the
    comparison takes is not part of this model.) *)
Definition compare_digest (a b : hstr) : result bool :=
  if Str.isascii a && Str.isascii b then Ok (Str.eqb a b) else Raise TypeError.

(** ** Configuration ([app.py], lines 13 and 20) *)

Record config := Config {
  MAX_CONTENT_LENGTH : Z;
  HMAC_SECRET : pystr
}.

(** Line 20: the value of WEBHOOK_HMAC_SECRET, the empty text when it is
    not set, stripped. *)
Definition load_HMAC_SECRET (env : option pystr) : pystr :=
  Str.strip Str.isspace (match env with Some v => v | None => [] end).

(** [int(os.environ.get("MAX_CONTENT_LENGTH", 1024 * 1024))], the
    environment value already read as an integer. *)
Definition load_MAX_CONTENT_LENGTH (env : option Z) : Z :=
  match env with Some v => v | None => 1024 * 1024 end.

(** ** The signature verifier ([app.py], lines 22-35) *)

(** The part of the received signature that is compared: the text after the
    first "=" when there is one (line 32-33). *)
Definition normalize_sig (received_sig : hstr) : hstr :=
  if Str.contains_char "="%char received_sig then
    match snd (Str.split_once "="%char received_sig) with
    | Some after => after
    | None => received_sig
    end
  else received_sig.

Definition verify_hmac_sha256 (secret : pystr) (raw_body : bytes) (received_sig : hstr)
  : result bool :=
  match secret with
  | [] => Ok true
  | _ :: _ =>
      match received_sig with
      | [] => Ok false
      | _ :: _ =>
          let received_sig := normalize_sig received_sig in
          match Str.encode secret with
          | Raise e => Raise e
          | Ok key =>
              let computed := Str.hex (Hmac.digest key raw_body) in
              compare_digest (Str.lower computed) (Str.lower (Str.hstrip received_sig))
          end
      end
  end.

(** ** [bytes.decode("utf-8")] *)

Module Utf8.

Local Open Scope N_scope.

Definition is_cont (b : byte) : bool :=
  let n := Byte.to_N b in (0x80 <=? n) && (n <=? 0xBF).

Definition low6 (b : byte) : N := Byte.to_N b mod 64.

(** Strict UTF-8: no overlong forms, no surrogates, nothing above
    U+10FFFF.  [None] is [UnicodeDecodeError]. *)
Fixpoint decode_utf8 (bs : bytes) : option pystr :=
  match bs with
  | [] => Some []
  | b0 :: rest =>
      let n0 := Byte.to_N b0 in
      if n0 <? 0x80 then option_map (cons n0) (decode_utf8 rest)
      else if (0xC2 <=? n0) && (n0 <=? 0xDF) then
        match rest with
        | b1 :: rest1 =>
            if is_cont b1
            then option_map (cons ((n0 - 0xC0) * 64 + low6 b1)) (decode_utf8 rest1)
            else None
        | _ => None
        end
      else if (0xE0 <=? n0) && (n0 <=? 0xEF) then
        match rest with
        | b1 :: b2 :: rest2 =>
            let n1 := Byte.to_N b1 in
            if is_cont b1 && is_cont b2
               && (negb (n0 =? 0xE0) || (0xA0 <=? n1))
               && (negb (n0 =? 0xED) || (n1 <=? 0x9F))
            then option_map (cons ((n0 - 0xE0) * 4096 + low6 b1 * 64 + low6 b2))
                            (decode_utf8 rest2)
            else None
        | _ => None
        end
      else if (0xF0 <=? n0) && (n0 <=? 0xF4) then
        match rest with
        | b1 :: b2 :: b3 :: rest3 =>
            let n1 := Byte.to_N b1 in
            if is_cont b1 && is_cont b2 && is_cont b3
               && (negb (n0 =? 0xF0) || (0x90 <=? n1))
               && (negb (n0 =? 0xF4) || (n1 <=? 0x8F))
            then option_map
                   (cons ((n0 - 0xF0) * 262144 + low6 b1 * 4096 + low6 b2 * 64 + low6 b3))
                   (decode_utf8 rest3)
            else None
        | _ => None
        end
      else None
  end.

Definition decode (bs : bytes) : result pystr :=
  match decode_utf8 bs with
  | Some s => Ok s
  | None => Raise UnicodeDecodeError
  end.

End Utf8.

(** ** JSON values as Python objects *)

(** What [json.loads] returns: [None], [bool], [int], [float], [str], [list]
    and [dict].  A [float] keeps its decimal literal, sign, digits [m] and
    exponent [e] for the value [m * 10^e]; the [float] object is that value
    rounded to a double.  A [dict] is an association list with distinct
    keys, in insertion order. *)
#[warnings="-register-all"]
Inductive json : Type :=
| JNull
| JBool (b : bool)
| JInt (z : Z)
| JFloat (negative : bool) (m : N) (e : Z)
| JNaN
| JInfinity (negative : bool)
| JString (s : pystr)
| JArray (items : list json)
| JObject (members : list (pystr * json)).

Module Py.

Fixpoint str_eqb (a b : pystr) : bool :=
  match a, b with
  | [], [] => true
  | x :: a', y :: b' => N.eqb x y && str_eqb a' b'
  | _, _ => false
  end.

(** [d[k] = v] *)
Fixpoint dict_set (k : pystr) (v : json) (d : list (pystr * json)) : list (pystr * json) :=
  match d with
  | [] => [(k, v)]
  | (k', v') :: rest =>
      if str_eqb k k' then (k, v) :: rest else (k', v') :: dict_set k v rest
  end.

Fixpoint dict_lookup (k : pystr) (d : list (pystr * json)) : option json :=
  match d with
  | [] => None
  | (k', v) :: rest => if str_eqb k k' then Some v else dict_lookup k rest
  end.

(** [d.get(k, default)]; [d.get(k)] has the default [None]. *)
Definition dict_get (d : list (pystr * json)) (k : pystr) (default : json) : json :=
  match dict_lookup k d with
  | Some v => v
  | None => default
  end.

(** Does the double nearest to [m * 10^e] equal zero: the value is zero,
    or at most 2^-1075, half of the smallest positive double (a tie
    rounds to the even neighbour, zero). *)
Definition float_is_zero (m : N) (e : Z) : bool :=
  N.eqb m 0 || ((e <? 0) && (Z.of_N m * 2 ^ 1075 <=? 10 ^ (- e))).

(** Truth value of an object, as [or] and [if] test it. *)
Definition truthy (v : json) : bool :=
  match v with
  | JNull => false
  | JBool b => b
  | JInt z => negb (z =? 0)
  | JFloat _ m e => negb (float_is_zero m e)
  | JNaN => true
  | JInfinity _ => true
  | JString s => match s with [] => false | _ => true end
  | JArray l => match l with [] => false | _ => true end
  | JObject d => match d with [] => false | _ => true end
  end.

(** [v == "literal"] for a [str] literal: only an equal [str] is equal. *)
Definition eq_str (v : json) (lit : pystr) : bool :=
  match v with
  | JString s => str_eqb s lit
  | _ => false
  end.

End Py.

(** ** [json.loads] *)

(** Two limits of the interpreter that [json.loads] can run into: how many
    more nested calls the recursion limit allows when the scanner starts,
    and [sys.get_int_max_str_digits()] (4300 by default, 0 for no limit,
    also on an interpreter that has no such limit). *)
Record interpreter := Interpreter {
  recursion_headroom : nat;
  int_max_str_digits : N
}.

Module Json.

Local Open Scope N_scope.

(** Outcome of scanning a prefix of the text: a value and the text left,
    an exception, or the fuel of the model used up (which [loads_total]
    below shows [loads] never does). *)
Inductive scan (A : Type) : Type :=
| Scanned (a : A) (rest : pystr)
| Failed (e : exn)
| Exhausted.
Arguments Scanned {A} a rest.
Arguments Failed {A} e.
Arguments Exhausted {A}.

(** The text is not JSON. *)
Definition Invalid {A : Type} : scan A := Failed JSONDecodeError.

Definition eqc (c : ascii) (x : N) : bool := N.eqb x (code c).
Arguments eqc c%_char x.

(** The double quote, U+0022. *)
Definition is_quote (x : N) : bool := x =? 34.

(** The decoder's white space: space, tab, line feed, carriage return. *)
Definition is_ws (x : N) : bool := eqc " " x || (x =? 9) || (x =? 10) || (x =? 13).

Fixpoint skip_ws (s : pystr) : pystr :=
  match s with
  | c :: rest => if is_ws c then skip_ws rest else s
  | [] => []
  end.

Definition is_digit (x : N) : bool := (48 <=? x) && (x <=? 57).

Fixpoint take_digits (s : pystr) : list N * pystr :=
  match s with
  | c :: rest =>
      if is_digit c then let (ds, r) := take_digits rest in ((c - 48) :: ds, r)
      else ([], s)
  | [] => ([], [])
  end.

Definition number_of (ds : list N) : N := fold_left (fun a d => 10 * a + d) ds 0.

Definition hex_val (x : N) : option N :=
  if is_digit x then Some (x - 48)
  else if (97 <=? x) && (x <=? 102) then Some (x - 87)
  else if (65 <=? x) && (x <=? 70) then Some (x - 55)
  else None.

Definition hex4 (a b c d : N) : option N :=
  match hex_val a, hex_val b, hex_val c, hex_val d with
  | Some x, Some y, Some z, Some w => Some (((x * 16 + y) * 16 + z) * 16 + w)
  | _, _, _, _ => None
  end.

Definition escape (x : N) : option N :=
  if is_quote x || eqc "\" x || eqc "/" x then Some x
  else if eqc "b" x then Some 8
  else if eqc "f" x then Some 12
  else if eqc "n" x then Some 10
  else if eqc "r" x then Some 13
  else if eqc "t" x then Some 9
  else None.

Definition is_high_surrogate (x : N) : bool := (0xD800 <=? x) && (x <=? 0xDBFF).
Definition is_low_surrogate (x : N) : bool := (0xDC00 <=? x) && (x <=? 0xDFFF).
Definition join_surrogates (hi lo : N) : N :=
  0x10000 + (hi - 0xD800) * 1024 + (lo - 0xDC00).

(** The text of a string, from just after its opening quote ([strict]
    mode: no raw control character), and what follows its closing quote;
    [None] when the string is malformed.  [acc] is the text read so far,
    reversed. *)
Fixpoint scanstring (acc : pystr) (s : pystr) : option (pystr * pystr) :=
  match s with
  | [] => None
  | c :: rest =>
      if is_quote c then Some (rev acc, rest)
      else if eqc "\" c then
        match rest with
        | [] => None
        | e :: rest1 =>
            if eqc "u" e then
              match rest1 with
              | h1 :: h2 :: h3 :: h4 :: rest2 =>
                  match hex4 h1 h2 h3 h4 with
                  | None => None
                  | Some cp =>
                      match rest2 with
                      | b :: u :: g1 :: g2 :: g3 :: g4 :: rest3 =>
                          if is_high_surrogate cp && eqc "\" b && eqc "u" u then
                            match hex4 g1 g2 g3 g4 with
                            | None => None
                            | Some c2 =>
                                if is_low_surrogate c2
                                then scanstring (join_surrogates cp c2 :: acc) rest3
                                else scanstring (cp :: acc) rest2
                            end
                          else scanstring (cp :: acc) rest2
                      | _ => scanstring (cp :: acc) rest2
                      end
                  end
              | _ => None
              end
            else
              match escape e with
              | Some x => scanstring (x :: acc) rest1
              | None => None
              end
        end
      else if c <=? 0x1F then None
      else scanstring (c :: acc) rest
  end.

(** A number: an optional minus, integer digits without a leading zero,
    then an optional fraction and an optional exponent, each taken only
    when it has a digit. *)
Definition scan_sign (s : pystr) : bool * pystr :=
  match s with
  | c :: r => if eqc "-" c then (true, r) else (false, s)
  | [] => (false, s)
  end.

Definition scan_integer (s : pystr) : option (list N * pystr) :=
  match s with
  | c :: r =>
      if eqc "0" c then Some ([0], r)
      else if is_digit c then Some (take_digits s)
      else None
  | [] => None
  end.

Definition scan_fraction (s : pystr) : list N * pystr :=
  match s with
  | dot :: d :: r =>
      if eqc "." dot && is_digit d then take_digits (d :: r) else ([], s)
  | _ => ([], s)
  end.

Definition scan_exponent_sign (s : pystr) : bool * pystr :=
  match s with
  | sg :: r =>
      if eqc "-" sg then (true, r)
      else if eqc "+" sg then (false, r)
      else (false, s)
  | [] => (false, s)
  end.

Definition scan_exponent (s : pystr) : option Z * pystr :=
  match s with
  | e :: r =>
      if eqc "e" e || eqc "E" e then
        let (negative, r') := scan_exponent_sign r in
        match take_digits r' with
        | ([], _) => (None, s)
        | (ds, rest) =>
            (Some (if negative then (- Z.of_N (number_of ds))%Z
                   else Z.of_N (number_of ds)), rest)
        end
      else (None, s)
  | [] => (None, s)
  end.

(** [int(digits)] refuses more digits than the interpreter's limit (which
    cannot be set below 640) with [ValueError]. *)
Definition int_too_long (max_digits : N) (digits : list N) : bool :=
  let n := N.of_nat (length digits) in
  (640 <? n) && (0 <? max_digits) && (max_digits <? n).

Definition scan_number (max_digits : N) (s : pystr) : scan json :=
  let (negative, s1) := scan_sign s in
  match scan_integer s1 with
  | None => Invalid
  | Some (ints, r1) =>
      let (fracs, r2) := scan_fraction r1 in
      let (expo, r3) := scan_exponent r2 in
      match fracs, expo with
      | [], None =>
          if int_too_long max_digits ints then Failed ValueError
          else Scanned (JInt (if negative then (- Z.of_N (number_of ints))%Z
                              else Z.of_N (number_of ints))) r3
      | _, _ =>
          Scanned (JFloat negative (number_of (ints ++ fracs))
                          ((match expo with Some x => x | None => 0 end)
                           - Z.of_nat (length fracs))%Z) r3
      end
  end.

(** [s] begins with the characters of [lit]: what is left after them. *)
Fixpoint after_literal (lit : pystr) (s : pystr) : option pystr :=
  match lit, s with
  | [], _ => Some s
  | x :: lit', y :: s' => if x =? y then after_literal lit' s' else None
  | _ :: _, [] => None
  end.

Definition constant (lit : string) (v : json) (s : pystr) : option (json * pystr) :=
  option_map (pair v) (after_literal (ustr lit) s).

Definition scan_constant (s : pystr) : option (json * pystr) :=
  match s with
  | [] => None
  | c :: _ =>
      if eqc "n" c then constant "null" JNull s
      else if eqc "t" c then constant "true" (JBool true) s
      else if eqc "f" c then constant "false" (JBool false) s
      else if eqc "N" c then constant "NaN" JNaN s
      else if eqc "I" c then constant "Infinity" (JInfinity false) s
      else if eqc "-" c then constant "-Infinity" (JInfinity true) s
      else None
  end.

Section Scanner.

Variable max_digits : N.

(** The scanner proper.  Each call takes one unit of [fuel]; [depth] is how
    many more containers may be entered before the recursion limit is
    hit. *)
Fixpoint scan_once (fuel : nat) (depth : nat) (s : pystr) : scan json :=
  match fuel with
  | O => Exhausted
  | S n =>
      match s with
      | [] => Invalid
      | c :: rest =>
          if is_quote c then
            match scanstring [] rest with
            | Some (str, r) => Scanned (JString str) r
            | None => Invalid
            end
          else if eqc "{" c then
            match depth with
            | O => Failed RecursionError
            | S inner =>
                match skip_ws rest with
                | c' :: r =>
                    if eqc "}" c' then Scanned (JObject []) r
                    else parse_members n inner [] (skip_ws rest)
                | [] => Invalid
                end
            end
          else if eqc "[" c then
            match depth with
            | O => Failed RecursionError
            | S inner =>
                match skip_ws rest with
                | c' :: r =>
                    if eqc "]" c' then Scanned (JArray []) r
                    else parse_items n inner [] (skip_ws rest)
                | [] => Invalid
                end
            end
          else
            match scan_constant s with
            | Some (v, r) => Scanned v r
            | None => scan_number max_digits s
            end
      end
  end

(** The members of an object, at the quote of a key; [acc] is the [dict]
    built so far. *)
with parse_members (fuel : nat) (depth : nat) (acc : list (pystr * json)) (s : pystr)
  : scan json :=
  match fuel with
  | O => Exhausted
  | S n =>
      match s with
      | q :: r =>
          if is_quote q then
            match scanstring [] r with
            | Some (key, r1) =>
                match skip_ws r1 with
                | colon :: r2 =>
                    if eqc ":" colon then
                      match scan_once n depth (skip_ws r2) with
                      | Scanned v r3 =>
                          let acc' := Py.dict_set key v acc in
                          match skip_ws r3 with
                          | d :: r4 =>
                              if eqc "}" d then Scanned (JObject acc') r4
                              else if eqc "," d
                                   then parse_members n depth acc' (skip_ws r4)
                                   else Invalid
                          | [] => Invalid
                          end
                      | Failed e => Failed e
                      | Exhausted => Exhausted
                      end
                    else Invalid
                | [] => Invalid
                end
            | None => Invalid
            end
          else Invalid
      | [] => Invalid
      end
  end

(** The items of an array, at the start of an item; [acc] is the list
    built so far, reversed. *)
with parse_items (fuel : nat) (depth : nat) (acc : list json) (s : pystr) : scan json :=
  match fuel with
  | O => Exhausted
  | S n =>
      match scan_once n depth s with
      | Scanned v r =>
          match skip_ws r with
          | d :: r1 =>
              if eqc "]" d then Scanned (JArray (rev (v :: acc))) r1
              else if eqc "," d then parse_items n depth (v :: acc) (skip_ws r1)
              else Invalid
          | [] => Invalid
          end
      | Failed e => Failed e
      | Exhausted => Exhausted
      end
  end.

End Scanner.

Definition fuel_for (s : pystr) : nat := 2 * length s + 1.

(** [json.loads(s)] for a [str]: no byte order mark, one value between
    optional white space, nothing after it.  It returns the value or raises
    [JSONDecodeError], or [RecursionError] or [ValueError] at one of the
    interpreter's limits. *)
Definition loads (py : interpreter) (s : pystr) : result json :=
  match s with
  | 0xFEFF :: _ => Raise JSONDecodeError
  | _ =>
      match scan_once (int_max_str_digits py) (fuel_for s) (recursion_headroom py)
                      (skip_ws s) with
      | Scanned v rest =>
          match skip_ws rest with
          | [] => Ok v
          | _ :: _ => Raise JSONDecodeError
          end
      | Failed e => Raise e
      | Exhausted => Raise JSONDecodeError
      end
  end.

End Json.

(** ** The request, the response, the log *)

(** What Flask's [request] gives the handler: the headers, the declared
    length ([request.content_length], [None] without a usable
    [Content-Length]) and the raw body ([request.get_data()]). *)
Record request := Request {
  headers : list (hstr * hstr);
  content_length : option N;
  data : bytes
}.

Module Headers.

(** Header names compare without regard to case. *)
Definition name_eqb (a b : hstr) : bool := Str.eqb (Str.lower a) (Str.lower b).

Fixpoint lookup (name : hstr) (h : list (hstr * hstr)) : option hstr :=
  match h with
  | [] => None
  | (n, v) :: rest => if name_eqb name n then Some v else lookup name rest
  end.

(** [request.headers.get(name)] *)
Definition get (req : request) (name : string) : option hstr :=
  lookup (hs name) (headers req).

(** [request.headers.get(name, default)] *)
Definition get_default (req : request) (name : string) (default : hstr) : hstr :=
  match get req name with
  | Some v => v
  | None => default
  end.

End Headers.

Record response := Response {
  body : json;
  status : Z
}.

(** [jsonify({key: text})] *)
Definition jsonify (key text : string) : json :=
  JObject [(ustr key, JString (ustr text))].

Definition error_response (text : string) (code : Z) : response :=
  Response (jsonify "error" text) code.

Inductive level : Type := INFO | WARNING | ERROR.

(** One constructor per logging call of the handler, with the values its
    message interpolates. *)
Inductive message : Type :=
| Signature_verification_failed
| JSON_parsing_error
| Webhook_received (wtype state : json)
| Deposit_confirmed (amount currency txid : json)
| Wallet_confirmation_received
| New_block_notification
| Other_webhook_type (wtype : json).

Definition log_record : Type := level * message.

(** A handler computation: what it logged, and the value it returned or the
    exception that ended it. *)
Definition handler (A : Type) : Type := list log_record * result A.

Definition ret {A : Type} (a : A) : handler A := ([], Ok a).

Definition lift {A : Type} (r : result A) : handler A := ([], r).

Definition log (l : level) (m : message) : handler unit := ([(l, m)], Ok tt).

Definition bind {A B : Type} (m : handler A) (k : A -> handler B) : handler B :=
  match m with
  | (l, Ok a) => let (l', r) := k a in (l ++ l', r)
  | (l, Raise e) => (l, Raise e)
  end.

Notation "x <- m ;; k" := (bind m (fun x => k))
  (at level 61, m at next level, right associativity).
Notation "m ;; k" := (bind m (fun _ => k))
  (at level 61, right associativity).

(** ** The webhook handler ([app.py], lines 48-99) *)

(** Line 51-52: the lower-cased [Content-Type] contains "application/json". *)
Definition content_type_ok (req : request) : bool :=
  let ctype := Headers.get_default req "Content-Type" [] in
  Str.contains (hs "application/json") (Str.lower ctype).

(** Line 56: [request.content_length and request.content_length > MAX]. *)
Definition too_large (cfg : config) (req : request) : bool :=
  match content_length req with
  | None => false
  | Some n => negb (N.eqb n 0) && (MAX_CONTENT_LENGTH cfg <? Z.of_N n)
  end.

(** Line 63: the X-Signature-SHA256 header [or] the X-Hub-Signature-256
    header, the empty text when that one is missing. *)
Definition received_signature (req : request) : hstr :=
  match Headers.get req "X-Signature-SHA256" with
  | Some (c :: s) => c :: s
  | _ => Headers.get_default req "X-Hub-Signature-256" []
  end.

(** [value.get(key)]: only a [dict] has [get]. *)
Definition value_get (value : json) (key : string) : handler json :=
  match value with
  | JObject d => ret (Py.dict_get d (ustr key) JNull)
  | _ => lift (Raise AttributeError)
  end.

(** Lines 79-99: classify the event, log it, acknowledge. *)
Definition process_event (d : list (pystr * json)) : handler response :=
  let wtype := Py.dict_get d (ustr "type") JNull in
  let state := Py.dict_get d (ustr "state") JNull in
  log INFO (Webhook_received wtype state) ;;
  (if Py.eq_str wtype (ustr "transfer") && Py.eq_str state (ustr "confirmed") then
     let value :=
       let v := Py.dict_get d (ustr "value") (JObject []) in
       if Py.truthy v then v else JObject [] in
     amount <- value_get value "amount" ;;
     currency <- value_get value "currency" ;;
     let txid := Py.dict_get d (ustr "hash") JNull in
     log INFO (Deposit_confirmed amount currency txid)
   else if Py.eq_str wtype (ustr "wallet_confirmation") then
     log INFO Wallet_confirmation_received
   else if Py.eq_str wtype (ustr "block") then
     log INFO New_block_notification
   else
     log INFO (Other_webhook_type wtype)) ;;
  ret (Response (jsonify "status" "OK") 200).

(** Line 70: [text or "{}"], an empty text is read as an empty object. *)
Definition or_empty_object (text : pystr) : pystr :=
  match text with
  | [] => ustr "{}"
  | _ :: _ => text
  end.

Definition bitgo_webhook (py : interpreter) (cfg : config) (req : request)
  : handler response :=
  if negb (content_type_ok req) then
    ret (error_response "Unsupported media type; send application/json" 415)
  else if too_large cfg req then
    ret (error_response "Payload too large" 413)
  else
    let raw_body := data req in
    let sig := received_signature req in
    verified <- lift (verify_hmac_sha256 (HMAC_SECRET cfg) raw_body sig) ;;
    if negb verified then
      log WARNING Signature_verification_failed ;;
      ret (error_response "Invalid signature" 401)
    else
      text <- lift (Utf8.decode raw_body) ;;
      match Json.loads py (or_empty_object text) with
      | Raise JSONDecodeError =>
          log ERROR JSON_parsing_error ;;
          ret (error_response "Invalid JSON format" 400)
      | Raise e => lift (Raise e)
      | Ok (JObject d) => process_event d
      | Ok _ => ret (error_response "JSON object required" 400)
      end.

(** The status of the HTTP response: the handler's, or 500 when the handler
    ended with an exception (Flask's answer to an unhandled exception). *)
Definition http_status (py : interpreter) (cfg : config) (req : request) : Z :=
  match snd (bitgo_webhook py cfg req) with
  | Ok resp => status resp
  | Raise _ => 500
  end.

(** ** The handler's answers *)

Definition unsupported_media_type : handler response :=
  ([], Ok (error_response "Unsupported media type; send application/json" 415)).
Definition payload_too_large : handler response :=
  ([], Ok (error_response "Payload too large" 413)).
Definition invalid_signature : handler response :=
  ([(WARNING, Signature_verification_failed)], Ok (error_response "Invalid signature" 401)).
Definition invalid_json : handler response :=
  ([(ERROR, JSON_parsing_error)], Ok (error_response "Invalid JSON format" 400)).
Definition object_required : handler response :=
  ([], Ok (error_response "JSON object required" 400)).

(** The acknowledgement of line 99. *)
Definition acknowledged : response := Response (jsonify "status" "OK") 200.

(** ** Progress of the JSON scanner *)

(** A scan that has not run out of fuel, and that leaves less text than it
    was given when it succeeds. *)
Definition progress {A : Type} (x : Json.scan A) (s : pystr) : Prop :=
  match x with
  | Json.Scanned _ r => (length r < length s)%nat
  | Json.Failed _ => True
  | Json.Exhausted => False
  end.

(** ** The unhardened handler ([main.py], lines 16-62) *)

Module Main.

(** What [request.get_json()] does for the handler: it returns the parsed
    body ([None] for the JSON text null, and on the Flask versions that
    answer [None] to a request that is not JSON) or it raises (a body that
    does not parse, a content type that is not JSON on the other
    versions).  The handler catches every [Exception], so which one is
    raised does not matter to it. *)
Inductive get_json_outcome : Type :=
| Returns (data : json)
| Raises.

(** What the handler reads of Flask's [request]: the body as text
    ([get_data(as_text=True)]) and the outcome of [get_json()]. *)
Record request := Request {
  raw_data : pystr;
  get_json : get_json_outcome
}.

(** One constructor per logging call, with the values it interpolates (the
    clock reading and the headers of lines 33-34 are left out). *)
Inductive message : Type :=
| Raw_request_data (raw : pystr)
| JSON_parsing_error
| Webhook_received
| Headers_logged
| JSON_data (data : json)
| End_of_webhook
| Deposit_confirmed
| Amount (v : json)
| Currency (v : json)
| Transaction_ID (v : json)
| Wallet_confirmation_received
| New_block_notification
| Other_webhook_type (wtype : json)
| Unexpected_error (e : exn).

Definition log_record : Type := level * message.

Definition run (A : Type) : Type := list log_record * result A.

Definition ret {A : Type} (a : A) : run A := ([], Ok a).

Definition raise {A : Type} (e : exn) : run A := ([], Raise e).

Definition say (l : level) (m : message) : run unit := ([(l, m)], Ok tt).

Definition bind {A B : Type} (m : run A) (k : A -> run B) : run B :=
  match m with
  | (l, Ok a) => let (l', r) := k a in (l ++ l', r)
  | (l, Raise e) => (l, Raise e)
  end.

(** [try: m  except Exception as e: h e] *)
Definition catch {A : Type} (m : run A) (h : exn -> run A) : run A :=
  match m with
  | (l, Ok a) => (l, Ok a)
  | (l, Raise e) => let (l', r) := h e in (l ++ l', r)
  end.

Local Notation "m >>= k" := (bind m k) (at level 58, left associativity).

(** [obj.get(key)] and [obj.get(key, default)]: only a [dict] has [get]. *)
Definition get (obj : json) (key : string) (default : json) : run json :=
  match obj with
  | JObject d => ret (Py.dict_get d (ustr key) default)
  | _ => raise AttributeError
  end.

Section Handler.

(** Does [json.dumps(data, indent=2)] (line 35) end in [RecursionError]:
    the indenting encoder recurses in Python, and how deep a value it can
    take depends on the interpreter. *)
Variable dumps_raises : json -> bool.

(** Lines 42-56: the branch on the event type. *)
Definition classify (data webhook_type state : json) : run unit :=
  if Py.eq_str webhook_type (ustr "transfer") && Py.eq_str state (ustr "confirmed") then
    say INFO Deposit_confirmed >>= fun _ =>
    get data "value" (JObject []) >>= fun value =>
    get value "amount" JNull >>= fun amount =>
    say INFO (Amount amount) >>= fun _ =>
    get value "currency" JNull >>= fun currency =>
    say INFO (Currency currency) >>= fun _ =>
    get data "hash" JNull >>= fun txid =>
    say INFO (Transaction_ID txid)
  else if Py.eq_str webhook_type (ustr "wallet_confirmation") then
    say INFO Wallet_confirmation_received
  else if Py.eq_str webhook_type (ustr "block") then
    say INFO New_block_notification
  else
    say INFO (Other_webhook_type webhook_type).

(** Lines 33-58, after the body has been read as [data]. *)
Definition process (data : json) : run response :=
  say INFO Webhook_received >>= fun _ =>
  say INFO Headers_logged >>= fun _ =>
  (if dumps_raises data then raise RecursionError
   else say INFO (JSON_data data)) >>= fun _ =>
  say INFO End_of_webhook >>= fun _ =>
  get data "type" JNull >>= fun webhook_type =>
  get data "state" JNull >>= fun state =>
  classify data webhook_type state >>= fun _ =>
  ret (Response (jsonify "status" "OK") 200).

Definition bitgo_webhook (req : request) : run response :=
  catch
    (say INFO (Raw_request_data (raw_data req)) >>= fun _ =>
     match get_json req with
     | Raises =>
         say ERROR JSON_parsing_error >>= fun _ =>
         ret (error_response "Invalid JSON format" 400)
     | Returns JNull => ret (error_response "Invalid JSON or no JSON data" 400)
     | Returns data => process data
     end)
    (fun e =>
       say ERROR (Unexpected_error e) >>= fun _ =>
       ret (error_response "Internal server error" 500)).

(** The status of the HTTP response, as for [app.py]. *)
Definition http_status (req : request) : Z :=
  match snd (bitgo_webhook req) with
  | Ok resp => status resp
  | Raise _ => 500
  end.

End Handler.

End Main.

(** ** Predicates used in the statements *)

(** Is the event a confirmed transfer. *)
Definition is_deposit (d : list (pystr * json)) : bool :=
  Py.eq_str (Py.dict_get d (ustr "type") JNull) (ustr "transfer")
  && Py.eq_str (Py.dict_get d (ustr "state") JNull) (ustr "confirmed").

(** The bytes of JSON white space: space, tab, line feed, carriage
    return. *)
Definition blank_byte (b : byte) : bool :=
  Byte.eqb b x20 || Byte.eqb b x09 || Byte.eqb b x0a || Byte.eqb b x0d.

(** ** The specification's wording, where the code is checked against it *)

Module Spec.

(** The received signature, after stripping an optional "algo=" prefix,
    case-insensitively equals the hex encoding of HMAC-SHA256(S, B). *)
Definition signature_matches (secret : pystr) (raw_body : bytes) (sig : hstr) : Prop :=
  exists key,
    Str.encode secret = Ok key
    /\ Str.lower (normalize_sig sig) = Str.lower (Str.hex (Hmac.digest key raw_body)).

(** The signature is taken from X-Signature-SHA256, falling back to
    X-Hub-Signature-256 when the first is absent. *)
Definition signature_header (req : request) : hstr :=
  match Headers.get req "X-Signature-SHA256" with
  | Some v => v
  | None => Headers.get_default req "X-Hub-Signature-256" []
  end.

(** The Content-Type header contains "application/json". *)
Definition content_type_contains_json (req : request) : bool :=
  Str.contains (hs "application/json") (Headers.get_default req "Content-Type" []).

(** The raw body parses as UTF-8 JSON, and to what. *)
Definition parse_utf8_json (py : interpreter) (raw_body : bytes) : option json :=
  match Utf8.decode_utf8 raw_body with
  | Some text =>
      match Json.loads py text with
      | Ok v => Some v
      | Raise _ => None
      end
  | None => None
  end.

End Spec.

(** ** Concrete configurations and requests *)

Module Examples.

(** The bytes of a JSON text written with apostrophes in place of its
    double quotes. *)
Definition json_bytes (s : string) : bytes :=
  map (fun b => if Byte.eqb b x27 then x22 else b) (bytes_of_string s).

(** CPython as it comes: a recursion limit of 1000, part of it taken by the
    frames of the server and of Flask, and at most 4300 digits to an
    [int]. *)
Definition cpython : interpreter := Interpreter 900 4300.

(** No environment variable set: the default limit, no secret. *)
Definition no_secret : config :=
  Config (load_MAX_CONTENT_LENGTH None) (load_HMAC_SECRET None).

(** WEBHOOK_HMAC_SECRET=Jefe *)
Definition with_secret : config :=
  Config (load_MAX_CONTENT_LENGTH None) (load_HMAC_SECRET (Some (ustr "Jefe"))).

(** A POST with the given extra headers, [Content-Type: application/json]
    and a [Content-Length] that is the length of the body. *)
Definition post (extra : list (string * string)) (raw_body : bytes) : request :=
  Request ((hs "Content-Type", hs "application/json")
           :: map (fun '(n, v) => (hs n, hs v)) extra)
          (Some (N.of_nat (length raw_body))) raw_body.

(** The same with another [Content-Type]. *)
Definition post_as (ctype : string) (extra : list (string * string)) (raw_body : bytes)
  : request :=
  Request ((hs "Content-Type", hs ctype) :: map (fun '(n, v) => (hs n, hs v)) extra)
          (Some (N.of_nat (length raw_body))) raw_body.

Definition rfc_body : bytes := bytes_of_string "what do ya want for nothing?".

(** HMAC-SHA256 of [rfc_body] under the key Jefe (RFC 4231, test case 2),
    and of the two bytes of an empty JSON object under the same key. *)
Definition rfc_hex : string :=
  "5bdcc146bf60754e6a042426089575c75a003f089d2739839dec58b964ec3843".
Definition empty_object_hex : string :=
  "7bb7ae87018c3fb8b9be866ac39dea2bcc1ad2c907c314bbcad059bdeee591d6".

(** A confirmed transfer whose [value] is a JSON string, not an object. *)
Definition transfer_with_text_value : bytes :=
  json_bytes "{'type':'transfer','state':'confirmed','value':'1.5'}".

(** The payload of the specification's acceptance example. *)
Definition confirmed_transfer : bytes :=
  json_bytes "{'type':'transfer','state':'confirmed','value':"
  ++ json_bytes "{'amount':'1.5','currency':'BTC'},'hash':'abc123'}".

End Examples.

(** ** Published test vectors *)

Module Vectors.

(** FIPS 180-4, appendix: SHA-256 of "abc". *)
Example sha256_abc :
  Str.hex (Sha256.digest (bytes_of_string "abc"))
  = hs "ba7816bf8f01cfea414140de5dae2223b00361a396177a9cb410ff61f20015ad".
Proof. vm_compute. reflexivity. Qed.

(** The two-block message of the same appendix. *)
Example sha256_two_blocks :
  Str.hex (Sha256.digest
             (bytes_of_string "abcdbcdecdefdefgefghfghighijhijkijkljklmklmnlmnomnopnopq"))
  = hs "248d6a61d20638b8e5c026930c3e6039a33ce45964ff2167f6ecedd419db06c1".
Proof. vm_compute. reflexivity. Qed.

(** RFC 4231, test case 2. *)
Example hmac_rfc4231_2 :
  Str.hex (Hmac.digest (bytes_of_string "Jefe")
                       (bytes_of_string "what do ya want for nothing?"))
  = hs "5bdcc146bf60754e6a042426089575c75a003f089d2739839dec58b964ec3843".
Proof. vm_compute. reflexivity. Qed.

(** RFC 4231, test case 6: a key longer than the block size. *)
Example hmac_rfc4231_6 :
  Str.hex (Hmac.digest (repeat xaa 131)
                       (bytes_of_string "Test Using Larger Than Block-Size Key - Hash Key First"))
  = hs "60e431591ee0b67f0d8a26aacbf5b77f8e0bc6213728c5140546040f0ee37f54".
Proof. vm_compute. reflexivity. Qed.

(** UTF-8 of U+20AC, U+00E9, U+1F600 and "A", both ways; a lone surrogate
    has no encoding, and its three-byte form is not decoded. *)
Example utf8_both_ways :
  Str.encode [0x20AC; 0xE9; 0x1F600; 0x41]%N
  = Ok [xe2; x82; xac; xc3; xa9; xf0; x9f; x98; x80; x41]
  /\ Utf8.decode [xe2; x82; xac; xc3; xa9; xf0; x9f; x98; x80; x41]
     = Ok [0x20AC; 0xE9; 0x1F600; 0x41]%N
  /\ Str.encode [0xDC80]%N = Raise UnicodeEncodeError
  /\ Utf8.decode [xed; xb2; x80] = Raise UnicodeDecodeError.
Proof. repeat split. Qed.

End Vectors.

(** ** Text lemmas *)

Lemma Str_eqb_eq (a b : hstr) : Str.eqb a b = true <-> a = b.
Proof.
  revert b. induction a as [|x a IH]; intros [|y b]; simpl; split; intro H;
    try reflexivity; try discriminate.
  - apply andb_true_iff in H. destruct H as [Hxy Hab].
    apply Ascii.eqb_eq in Hxy. apply IH in Hab. congruence.
  - injection H as -> ->. rewrite Ascii.eqb_refl. simpl. apply IH. reflexivity.
Qed.

Lemma Str_eqb_refl (a : hstr) : Str.eqb a a = true.
Proof. apply Str_eqb_eq. reflexivity. Qed.

Lemma lower_char_ascii (c : ascii) :
  (code c <? 128)%N = true -> (code (Str.lower_char c) <? 128)%N = true.
Proof.
  destruct c as [[] [] [] [] [] [] [] []]; vm_compute; intro H;
    first [reflexivity | discriminate H].
Qed.

Lemma lower_isascii (s : hstr) : Str.isascii s = true -> Str.isascii (Str.lower s) = true.
Proof.
  induction s as [|c s IH]; simpl; intro H; [reflexivity|].
  apply andb_true_iff in H. destruct H as [Hc Hs].
  apply andb_true_iff. split; [apply lower_char_ascii, Hc | apply IH, Hs].
Qed.

Lemma hex_isascii (bs : bytes) : Str.isascii (Str.hex bs) = true.
Proof.
  induction bs as [|b bs IH]; [reflexivity|].
  unfold Str.hex in *. cbn [flat_map]. unfold Str.isascii in *.
  rewrite forallb_app, IH, andb_true_r.
  destruct b; reflexivity.
Qed.

Lemma hex_length (bs : bytes) : length (Str.hex bs) = (2 * length bs)%nat.
Proof.
  induction bs as [|b bs IH]; [reflexivity|].
  unfold Str.hex in *. cbn [flat_map length app]. rewrite IH. lia.
Qed.

Lemma sha256_digest_length (msg : bytes) : length (Sha256.digest msg) = 32%nat.
Proof.
  unfold Sha256.digest, Sha256.word_bytes, Sha256.be_bytes.
  cbv zeta. rewrite !length_app, !length_map, !length_rev, !length_seq. reflexivity.
Qed.

Lemma hmac_digest_length (key msg : bytes) : length (Hmac.digest key msg) = 32%nat.
Proof. unfold Hmac.digest. apply sha256_digest_length. Qed.

Lemma lower_length (s : hstr) : length (Str.lower s) = length s.
Proof. apply length_map. Qed.

(** [compare_digest] against an ASCII text is equality with it. *)
Lemma compare_digest_true (a b : hstr) :
  Str.isascii a = true -> (compare_digest a b = Ok true <-> b = a).
Proof.
  intro Ha. unfold compare_digest. rewrite Ha. cbn [andb]. split.
  - destruct (Str.isascii b); [|discriminate].
    intro H. injection H as H. apply Str_eqb_eq in H. congruence.
  - intros ->. rewrite Ha, Str_eqb_refl. reflexivity.
Qed.

Lemma lstrip_all_space {A : Type} (space : A -> bool) (s : list A) :
  forallb space s = true -> Str.lstrip space s = [].
Proof.
  induction s as [|c s IH]; simpl; [reflexivity|].
  intro H. apply andb_true_iff in H. destruct H as [Hc Hs].
  rewrite Hc. apply IH, Hs.
Qed.

Lemma strip_all_space {A : Type} (space : A -> bool) (s : list A) :
  forallb space s = true -> Str.strip space s = [].
Proof.
  intro H. unfold Str.strip, Str.rstrip. rewrite (lstrip_all_space _ _ H). reflexivity.
Qed.

Lemma decode_utf8_empty (bs : bytes) : Utf8.decode_utf8 bs = Some [] -> bs = [].
Proof.
  destruct bs as [|b0 rest]; [reflexivity|].
  cbn [Utf8.decode_utf8]. cbv zeta.
  repeat match goal with
         | |- context [if ?c then _ else _] => destruct c
         | |- context [match ?l with [] => _ | _ :: _ => _ end] => destruct l
         | |- context [option_map _ ?o] => destruct o; cbn [option_map]
         end; discriminate.
Qed.


(** ** [json.loads] is total *)

Lemma skip_ws_le (s : pystr) : (length (Json.skip_ws s) <= length s)%nat.
Proof.
  induction s as [|c s IH]; simpl; [lia|].
  destruct (Json.is_ws c); simpl; lia.
Qed.

Lemma take_digits_le (s : pystr) : (length (snd (Json.take_digits s)) <= length s)%nat.
Proof.
  induction s as [|c s IH]; simpl; [lia|].
  destruct (Json.is_digit c); simpl; [|lia].
  destruct (Json.take_digits s) as [ds r]. simpl in *. lia.
Qed.

Lemma scan_sign_le (s : pystr) : (length (snd (Json.scan_sign s)) <= length s)%nat.
Proof.
  destruct s as [|c r]; simpl; [lia|].
  destruct (Json.eqc "-" c); simpl; lia.
Qed.

Lemma scan_integer_lt (s : pystr) (ds : list N) (r : pystr) :
  Json.scan_integer s = Some (ds, r) -> (length r < length s)%nat.
Proof.
  unfold Json.scan_integer. destruct s as [|c s']; [discriminate|].
  destruct (Json.eqc "0" c).
  - intro H. injection H as _ <-. simpl. lia.
  - destruct (Json.is_digit c) eqn:Ed; [|discriminate].
    intro H. injection H as H.
    pose proof (take_digits_le s') as Hle.
    cbn [Json.take_digits] in H. rewrite Ed in H.
    destruct (Json.take_digits s') as [ds' r']. injection H as _ <-. simpl in *. lia.
Qed.

Lemma scan_fraction_le (s : pystr) : (length (snd (Json.scan_fraction s)) <= length s)%nat.
Proof.
  destruct s as [|dot [|d r]]; simpl; try lia.
  destruct (Json.eqc "." dot && Json.is_digit d); simpl; [|lia].
  pose proof (take_digits_le (d :: r)) as H. simpl in H. lia.
Qed.

Lemma scan_exponent_sign_le (s : pystr) :
  (length (snd (Json.scan_exponent_sign s)) <= length s)%nat.
Proof.
  destruct s as [|sg r]; cbn [Json.scan_exponent_sign snd length]; [lia|].
  destruct (Json.eqc "-" sg); [cbn [snd length]; lia|].
  destruct (Json.eqc "+" sg); cbn [snd length]; lia.
Qed.

Lemma scan_exponent_le (s : pystr) : (length (snd (Json.scan_exponent s)) <= length s)%nat.
Proof.
  destruct s as [|e r]; cbn [Json.scan_exponent snd length]; [lia|].
  destruct (Json.eqc "e" e || Json.eqc "E" e); cbn [snd length]; [|lia].
  pose proof (scan_exponent_sign_le r) as Hs.
  destruct (Json.scan_exponent_sign r) as [negative r'].
  pose proof (take_digits_le r') as Hd.
  destruct (Json.take_digits r') as [[|d ds] rest]; cbn [snd length] in *; lia.
Qed.

Lemma scan_number_progress (max_digits : N) (s : pystr) :
  progress (Json.scan_number max_digits s) s.
Proof.
  unfold Json.scan_number.
  pose proof (scan_sign_le s) as H0.
  destruct (Json.scan_sign s) as [negative s1]. simpl in H0.
  destruct (Json.scan_integer s1) as [[ints r1]|] eqn:Ei; [|exact I].
  apply scan_integer_lt in Ei.
  pose proof (scan_fraction_le r1) as H2.
  destruct (Json.scan_fraction r1) as [fracs r2]. simpl in H2.
  pose proof (scan_exponent_le r2) as H3.
  destruct (Json.scan_exponent r2) as [expo r3]. simpl in H3.
  destruct fracs, expo; try (simpl; lia).
  destruct (Json.int_too_long max_digits ints); simpl; [exact I | lia].
Qed.

Lemma after_literal_length (lit s r : pystr) :
  Json.after_literal lit s = Some r -> length s = (length lit + length r)%nat.
Proof.
  revert s. induction lit as [|x lit IH]; intros [|y s]; simpl; intro H;
    try discriminate; try (injection H as <-; reflexivity).
  destruct (x =? y)%N; [|discriminate]. rewrite (IH _ H). reflexivity.
Qed.

Lemma constant_lt (lit : string) (v v' : json) (s r : pystr) :
  lit <> EmptyString ->
  Json.constant lit v s = Some (v', r) -> (length r < length s)%nat.
Proof.
  intros Hne H. unfold Json.constant in H.
  destruct (Json.after_literal (ustr lit) s) as [r'|] eqn:E; [|discriminate].
  simpl in H. injection H as _ <-. apply after_literal_length in E.
  destruct lit; [contradiction|]. unfold ustr, hs in E. simpl in E. lia.
Qed.

Lemma scan_constant_lt (s : pystr) (v : json) (r : pystr) :
  Json.scan_constant s = Some (v, r) -> (length r < length s)%nat.
Proof.
  unfold Json.scan_constant. destruct s as [|c s']; [discriminate|].
  repeat match goal with
         | |- context [if ?b then _ else _] => destruct b
         end;
    try discriminate; apply constant_lt; discriminate.
Qed.

Lemma progress_weaken {A : Type} (x : Json.scan A) (s' s : pystr) :
  progress x s' -> (length s' <= length s)%nat -> progress x s.
Proof. destruct x; simpl; [lia | trivial | trivial]. Qed.

Lemma scanstring_lt (s : pystr) :
  forall acc str r, Json.scanstring acc s = Some (str, r) -> (length r < length s)%nat.
Proof.
  remember (length s) as n eqn:Hn. revert s Hn.
  induction n as [n IH] using lt_wf_ind. intros s Hn acc str r. subst n.
  assert (step : forall s' acc', (length s' < length s)%nat ->
                                 Json.scanstring acc' s' = Some (str, r) ->
                                 (length r < length s)%nat).
  { intros s' acc' Hlt H. pose proof (IH (length s') Hlt s' eq_refl _ _ _ H). lia. }
  clear IH.
  destruct s as [|c rest]; [discriminate|]. cbn [Json.scanstring].
  destruct (Json.is_quote c); [intro H; injection H as _ <-; simpl; lia|].
  destruct (Json.eqc "\" c).
  - destruct rest as [|e rest1]; [discriminate|].
    destruct (Json.eqc "u" e).
    + destruct rest1 as [|h1 [|h2 [|h3 [|h4 rest2]]]]; try discriminate.
      destruct (Json.hex4 h1 h2 h3 h4) as [cp|]; [|discriminate].
      destruct rest2 as [|b [|u [|g1 [|g2 [|g3 [|g4 rest3]]]]]];
        try (apply step; simpl; lia).
      destruct (Json.is_high_surrogate cp && Json.eqc "\" b && Json.eqc "u" u);
        [|apply step; simpl; lia].
      destruct (Json.hex4 g1 g2 g3 g4) as [c2|]; [|discriminate].
      destruct (Json.is_low_surrogate c2); apply step; simpl; lia.
    + destruct (Json.escape e); [apply step; simpl; lia | discriminate].
  - destruct (c <=? 31)%N; [discriminate | apply step; simpl; lia].
Qed.

Section ScannerProgress.

Variable max_digits : N.

Lemma scan_progress (fuel : nat) :
  (forall depth s, (2 * length s + 1 <= fuel)%nat ->
                   progress (Json.scan_once max_digits fuel depth s) s)
  /\ (forall depth acc s, (2 * length s + 2 <= fuel)%nat ->
                          progress (Json.parse_members max_digits fuel depth acc s) s)
  /\ (forall depth acc s, (2 * length s + 2 <= fuel)%nat ->
                          progress (Json.parse_items max_digits fuel depth acc s) s).
Proof.
  induction fuel as [|n [IHv [IHm IHi]]]; [repeat split; intros; lia|].
  split; [|split].
  - intros depth s Hf. cbn [Json.scan_once]. destruct s as [|c rest]; [exact I|].
    cbn [length] in Hf.
    destruct (Json.is_quote c).
    { destruct (Json.scanstring [] rest) as [[str r]|] eqn:Es; [|exact I].
      apply scanstring_lt in Es. simpl. lia. }
    destruct (Json.eqc "{" c).
    { destruct depth as [|inner]; [exact I|].
      pose proof (skip_ws_le rest) as Hw.
      destruct (Json.skip_ws rest) as [|c' r]; [exact I|]. cbn [length] in Hw.
      destruct (Json.eqc "}" c'); [simpl; lia|].
      apply (progress_weaken _ (c' :: r)); [apply IHm | ]; cbn [length]; lia. }
    destruct (Json.eqc "[" c).
    { destruct depth as [|inner]; [exact I|].
      pose proof (skip_ws_le rest) as Hw.
      destruct (Json.skip_ws rest) as [|c' r]; [exact I|]. cbn [length] in Hw.
      destruct (Json.eqc "]" c'); [simpl; lia|].
      apply (progress_weaken _ (c' :: r)); [apply IHi | ]; cbn [length]; lia. }
    destruct (Json.scan_constant (c :: rest)) as [[v r]|] eqn:Ec.
    + apply scan_constant_lt in Ec. exact Ec.
    + apply scan_number_progress.
  - intros depth acc s Hf. cbn [Json.parse_members]. destruct s as [|q r]; [exact I|].
    cbn [length] in Hf.
    destruct (Json.is_quote q); [|exact I].
    destruct (Json.scanstring [] r) as [[key r1]|] eqn:Ek; [|exact I].
    apply scanstring_lt in Ek.
    pose proof (skip_ws_le r1) as Hw1.
    destruct (Json.skip_ws r1) as [|colon r2]; [exact I|]. cbn [length] in Hw1.
    destruct (Json.eqc ":" colon); [|exact I].
    pose proof (skip_ws_le r2) as Hw2.
    assert (Hv : progress (Json.scan_once max_digits n depth (Json.skip_ws r2))
                          (Json.skip_ws r2))
      by (apply IHv; lia).
    destruct (Json.scan_once max_digits n depth (Json.skip_ws r2)) as [v r3|e|];
      [|exact I|exact Hv].
    simpl in Hv.
    pose proof (skip_ws_le r3) as Hw3.
    destruct (Json.skip_ws r3) as [|d r4]; [exact I|]. cbn [length] in Hw3.
    destruct (Json.eqc "}" d); [simpl; lia|].
    destruct (Json.eqc "," d); [|exact I].
    pose proof (skip_ws_le r4) as Hw4.
    apply (progress_weaken _ (Json.skip_ws r4)); [apply IHm | ]; cbn [length]; lia.
  - intros depth acc s Hf. cbn [Json.parse_items].
    assert (Hv : progress (Json.scan_once max_digits n depth s) s) by (apply IHv; lia).
    destruct (Json.scan_once max_digits n depth s) as [v r|e|]; [|exact I|exact Hv].
    simpl in Hv.
    pose proof (skip_ws_le r) as Hw.
    destruct (Json.skip_ws r) as [|d r1]; [exact I|]. cbn [length] in Hw.
    destruct (Json.eqc "]" d); [simpl; lia|].
    destruct (Json.eqc "," d); [|exact I].
    pose proof (skip_ws_le r1) as Hw1.
    apply (progress_weaken _ (Json.skip_ws r1)); [apply IHi | ]; cbn [length]; lia.
Qed.

End ScannerProgress.

(** The scanner never uses up its fuel inside [loads]: a [JSONDecodeError]
    of [loads] is always a rejection of the text. *)
Theorem loads_total (py : interpreter) (s : pystr) :
  Json.scan_once (int_max_str_digits py) (Json.fuel_for s) (recursion_headroom py)
                 (Json.skip_ws s) <> Json.Exhausted.
Proof.
  pose proof (skip_ws_le s) as Hw.
  pose proof (proj1 (scan_progress (int_max_str_digits py) (Json.fuel_for s))
                    (recursion_headroom py) (Json.skip_ws s)) as H.
  intro E. rewrite E in H. apply H. unfold Json.fuel_for. lia.
Qed.

(** ** The signature verifier *)

(** How [verify_hmac_sha256] answers with a secret configured and a
    signature received. *)
Lemma verify_with_secret (secret : pystr) (raw_body : bytes) (sig : hstr) :
  secret <> [] -> sig <> [] ->
  verify_hmac_sha256 secret raw_body sig =
  match Str.encode secret with
  | Raise e => Raise e
  | Ok key =>
      compare_digest (Str.lower (Str.hex (Hmac.digest key raw_body)))
                     (Str.lower (Str.hstrip (normalize_sig sig)))
  end.
Proof.
  intros Hs Hg. destruct secret as [|c secret]; [contradiction|].
  destruct sig as [|g sig]; [contradiction|]. reflexivity.
Qed.

(** With a secret configured, an empty signature is refused. *)
Lemma verify_empty_signature (secret : pystr) (raw_body : bytes) :
  secret <> [] -> verify_hmac_sha256 secret raw_body [] = Ok false.
Proof. intro Hs. destruct secret; [contradiction | reflexivity]. Qed.

(** C1, as stated, fails: with the secret Jefe and the body and digest of
    RFC 4231 test case 2, the signature "sha256= <digest>" (a space after
    the prefix) is accepted, although what follows the prefix is not the
    digest. *)
Lemma verify_accepts_padded_signature :
  verify_hmac_sha256 (ustr "Jefe") Examples.rfc_body
                     (hs "sha256= " ++ hs Examples.rfc_hex) = Ok true
  /\ ~ Spec.signature_matches (ustr "Jefe") Examples.rfc_body
                              (hs "sha256= " ++ hs Examples.rfc_hex).
Proof.
  split.
  - vm_compute. reflexivity.
  - intros [key [Hkey Heq]].
    vm_compute in Hkey. injection Hkey as <-.
    apply (f_equal (@length ascii)) in Heq.
    rewrite !lower_length, hex_length, hmac_digest_length in Heq.
    vm_compute in Heq. discriminate Heq.
Qed.

(** C1 (amended): with a non-empty secret, [verify_hmac_sha256] returns
    true exactly when the secret encodes as UTF-8 and the received
    signature, after dropping everything up to its first "=" and then the
    white space around what is left, equals the hex HMAC-SHA256 of the body
    without regard to case. *)
Theorem verify_true_iff (secret : pystr) (raw_body : bytes) (sig : hstr) :
  secret <> [] ->
  (verify_hmac_sha256 secret raw_body sig = Ok true
   <-> exists key,
        Str.encode secret = Ok key
        /\ Str.lower (Str.hstrip (normalize_sig sig))
           = Str.lower (Str.hex (Hmac.digest key raw_body))).
Proof.
  intro Hs. destruct sig as [|g sig].
  - rewrite verify_empty_signature by assumption. split; [discriminate|].
    intros [key [_ Heq]]. apply (f_equal (@length ascii)) in Heq.
    rewrite !lower_length, hex_length, hmac_digest_length in Heq. discriminate Heq.
  - rewrite verify_with_secret by (assumption || discriminate).
    destruct (Str.encode secret) as [key|e].
    + rewrite compare_digest_true by apply lower_isascii, hex_isascii.
      split.
      * intro H. exists key. split; [reflexivity | exact H].
      * intros [key' [Hk H]]. injection Hk as <-. exact H.
    + split; [discriminate|]. intros [key [Hk _]]. discriminate Hk.
Qed.

Lemma verify_true_iff_witness :
  let sig := hs "SHA256=5BDCC146BF60754E6A042426089575C75A003F089D2739839DEC58B964EC3843" in
  verify_hmac_sha256 (ustr "Jefe") Examples.rfc_body sig = Ok true
  <-> exists key,
        Str.encode (ustr "Jefe") = Ok key
        /\ Str.lower (Str.hstrip (normalize_sig sig))
           = Str.lower (Str.hex (Hmac.digest key Examples.rfc_body)).
Proof. cbv zeta. apply verify_true_iff. discriminate. Defined.

(** C4: without a configured secret (the environment variable unset or
    empty) [verify_hmac_sha256] returns true for every body and every
    received signature. *)
Theorem verify_without_secret :
  load_HMAC_SECRET None = [] /\ load_HMAC_SECRET (Some []) = []
  /\ forall (raw_body : bytes) (sig : hstr),
       verify_hmac_sha256 [] raw_body sig = Ok true.
Proof. repeat split. Qed.

(** C10: an environment value made of white space only is stripped to the
    empty secret at start-up, so it configures the same verifier and the
    same handler as no value at all: every signature is accepted. *)
Theorem whitespace_secret_is_no_secret (v : pystr) :
  forallb Str.isspace v = true ->
  load_HMAC_SECRET (Some v) = load_HMAC_SECRET None
  /\ (forall (raw_body : bytes) (sig : hstr),
        verify_hmac_sha256 (load_HMAC_SECRET (Some v)) raw_body sig = Ok true)
  /\ (forall (py : interpreter) (limit : Z) (req : request),
        bitgo_webhook py (Config limit (load_HMAC_SECRET (Some v))) req
        = bitgo_webhook py (Config limit (load_HMAC_SECRET None)) req).
Proof.
  intro H.
  assert (E : load_HMAC_SECRET (Some v) = []).
  { unfold load_HMAC_SECRET. apply strip_all_space, H. }
  rewrite E. repeat split.
Qed.

Lemma whitespace_secret_is_no_secret_witness :
  load_HMAC_SECRET (Some [32; 9; 10; 0xA0; 0x3000]%N) = load_HMAC_SECRET None
  /\ (forall (raw_body : bytes) (sig : hstr),
        verify_hmac_sha256 (load_HMAC_SECRET (Some [32; 9; 10; 0xA0; 0x3000]%N)) raw_body sig
        = Ok true)
  /\ (forall (py : interpreter) (limit : Z) (req : request),
        bitgo_webhook py (Config limit (load_HMAC_SECRET (Some [32; 9; 10; 0xA0; 0x3000]%N))) req
        = bitgo_webhook py (Config limit (load_HMAC_SECRET None)) req).
Proof. apply whitespace_secret_is_no_secret. reflexivity. Defined.

(** ** The handler, stage by stage *)

Lemma webhook_content_type (py : interpreter) (cfg : config) (req : request) :
  content_type_ok req = false -> bitgo_webhook py cfg req = unsupported_media_type.
Proof. intro H. unfold bitgo_webhook. rewrite H. reflexivity. Qed.

Lemma webhook_size (py : interpreter) (cfg : config) (req : request) :
  content_type_ok req = true -> too_large cfg req = true ->
  bitgo_webhook py cfg req = payload_too_large.
Proof. intros Hc Hs. unfold bitgo_webhook. rewrite Hc, Hs. reflexivity. Qed.

Lemma webhook_signature (py : interpreter) (cfg : config) (req : request) :
  content_type_ok req = true -> too_large cfg req = false ->
  verify_hmac_sha256 (HMAC_SECRET cfg) (data req) (received_signature req) = Ok false ->
  bitgo_webhook py cfg req = invalid_signature.
Proof.
  intros Hc Hs Hv. unfold bitgo_webhook. rewrite Hc, Hs. cbv zeta. rewrite Hv. reflexivity.
Qed.

Lemma webhook_signature_raises (py : interpreter) (cfg : config) (req : request) (e : exn) :
  content_type_ok req = true -> too_large cfg req = false ->
  verify_hmac_sha256 (HMAC_SECRET cfg) (data req) (received_signature req) = Raise e ->
  bitgo_webhook py cfg req = ([], Raise e).
Proof.
  intros Hc Hs Hv. unfold bitgo_webhook. rewrite Hc, Hs. cbv zeta. rewrite Hv. reflexivity.
Qed.

Lemma webhook_parse (py : interpreter) (cfg : config) (req : request) (text : pystr) :
  content_type_ok req = true -> too_large cfg req = false ->
  verify_hmac_sha256 (HMAC_SECRET cfg) (data req) (received_signature req) = Ok true ->
  Utf8.decode (data req) = Ok text ->
  bitgo_webhook py cfg req =
  match Json.loads py (or_empty_object text) with
  | Raise JSONDecodeError => invalid_json
  | Raise e => ([], Raise e)
  | Ok (JObject d) => process_event d
  | Ok _ => object_required
  end.
Proof.
  intros Hc Hs Hv Hd. unfold bitgo_webhook. rewrite Hc, Hs. cbv zeta. rewrite Hv, Hd.
  cbn [negb lift bind app]. cbv beta.
  destruct (Json.loads py (or_empty_object text)) as [v|e]; [|destruct e; reflexivity].
  destruct v; try reflexivity.
  destruct (process_event members); reflexivity.
Qed.

Lemma webhook_decode_raises (py : interpreter) (cfg : config) (req : request) (e : exn) :
  content_type_ok req = true -> too_large cfg req = false ->
  verify_hmac_sha256 (HMAC_SECRET cfg) (data req) (received_signature req) = Ok true ->
  Utf8.decode (data req) = Raise e ->
  bitgo_webhook py cfg req = ([], Raise e).
Proof.
  intros Hc Hs Hv Hd. unfold bitgo_webhook. rewrite Hc, Hs. cbv zeta. rewrite Hv, Hd.
  reflexivity.
Qed.

Lemma decode_nonempty (raw_body : bytes) (text : pystr) :
  raw_body <> [] -> Utf8.decode raw_body = Ok text -> or_empty_object text = text.
Proof.
  intros Hne Hd. destruct text as [|c text]; [|reflexivity].
  exfalso. apply Hne, decode_utf8_empty.
  unfold Utf8.decode in Hd.
  destruct (Utf8.decode_utf8 raw_body) as [s|]; [|discriminate Hd].
  injection Hd as ->. reflexivity.
Qed.

(** Once classified, an event is acknowledged, or the reading of
    [value.get] ends the handler with [AttributeError]. *)
Lemma process_event_outcome (d : list (pystr * json)) :
  snd (process_event d) = Ok acknowledged \/ snd (process_event d) = Raise AttributeError.
Proof.
  unfold process_event. cbv zeta.
  destruct (Py.eq_str _ _ && Py.eq_str _ _).
  - match goal with
    | |- context [value_get ?v _] => destruct v; cbn; auto
    end.
  - repeat match goal with
           | |- context [if ?c then _ else _] => destruct c
           end; cbn; auto.
Qed.

(** Every event other than a confirmed transfer is acknowledged. *)
Lemma process_event_not_deposit (d : list (pystr * json)) :
  Py.eq_str (Py.dict_get d (ustr "type") JNull) (ustr "transfer")
  && Py.eq_str (Py.dict_get d (ustr "state") JNull) (ustr "confirmed") = false ->
  snd (process_event d) = Ok acknowledged.
Proof.
  intro H. unfold process_event. cbv zeta. rewrite H.
  repeat match goal with
         | |- context [if ?c then _ else _] => destruct c
         end; reflexivity.
Qed.

(** A confirmed transfer is acknowledged when its [value] is an object, or
    is missing or falsy. *)
Lemma process_event_deposit (d : list (pystr * json)) :
  (forall v, Py.dict_lookup (ustr "value") d = Some v ->
             Py.truthy v = false \/ exists m, v = JObject m) ->
  snd (process_event d) = Ok acknowledged.
Proof.
  intro H. unfold process_event. cbv zeta.
  destruct (Py.eq_str _ _ && Py.eq_str _ _).
  - unfold Py.dict_get.
    destruct (Py.dict_lookup (ustr "value") d) as [v|].
    + destruct (H v eq_refl) as [Hf | [m ->]].
      * rewrite Hf. reflexivity.
      * destruct (Py.truthy (JObject m)); reflexivity.
    + reflexivity.
  - repeat match goal with
           | |- context [if ?c then _ else _] => destruct c
           end; reflexivity.
Qed.

(** ** The handler's checks *)

Lemma missing_content_type (req : request) :
  Headers.get req "Content-Type" = None -> content_type_ok req = false.
Proof.
  intro H. unfold content_type_ok, Headers.get_default. rewrite H. reflexivity.
Qed.

(** C6, as stated, fails: the header [Content-Type: Application/JSON] does
    not contain "application/json", and the request is accepted. *)
Lemma mixed_case_content_type_accepted :
  Spec.content_type_contains_json
    (Examples.post_as "Application/JSON" [] (Examples.json_bytes "{}")) = false
  /\ http_status Examples.cpython Examples.no_secret
       (Examples.post_as "Application/JSON" [] (Examples.json_bytes "{}")) = 200.
Proof. split; vm_compute; reflexivity. Qed.

(** C6 (amended): a POST whose Content-Type header is missing, or does not
    contain "application/json" once lower-cased, is answered with 415 and
    nothing else is looked at. *)
Theorem unsupported_media_type_415 (py : interpreter) (cfg : config) (req : request) :
  Headers.get req "Content-Type" = None
  \/ Str.contains (hs "application/json")
                  (Str.lower (Headers.get_default req "Content-Type" [])) = false ->
  bitgo_webhook py cfg req = unsupported_media_type /\ http_status py cfg req = 415.
Proof.
  intro H.
  assert (Hc : content_type_ok req = false).
  { destruct H as [H | H]; [apply missing_content_type, H | exact H]. }
  unfold http_status. rewrite (webhook_content_type py cfg req Hc). split; reflexivity.
Qed.

Lemma unsupported_media_type_415_witness :
  bitgo_webhook Examples.cpython Examples.no_secret
                (Examples.post_as "text/plain" [] (Examples.json_bytes "{}"))
  = unsupported_media_type
  /\ http_status Examples.cpython Examples.no_secret
                 (Examples.post_as "text/plain" [] (Examples.json_bytes "{}")) = 415.
Proof. apply unsupported_media_type_415. right. vm_compute. reflexivity. Defined.

Lemma default_limit : load_MAX_CONTENT_LENGTH None = 1048576.
Proof. reflexivity. Qed.

(** C7: with a limit that is not negative (1,048,576 unless configured), a
    POST with a JSON content type whose declared length exceeds the limit
    is answered with 413. *)
Theorem payload_too_large_413 (py : interpreter) (cfg : config) (req : request) (n : N) :
  0 <= MAX_CONTENT_LENGTH cfg ->
  content_type_ok req = true ->
  content_length req = Some n ->
  MAX_CONTENT_LENGTH cfg < Z.of_N n ->
  bitgo_webhook py cfg req = payload_too_large /\ http_status py cfg req = 413.
Proof.
  intros Hpos Hc Hn Hgt.
  assert (Hs : too_large cfg req = true).
  { unfold too_large. rewrite Hn. apply andb_true_iff. split.
    - apply negb_true_iff, N.eqb_neq. lia.
    - apply Z.ltb_lt, Hgt. }
  unfold http_status. rewrite (webhook_size py cfg req Hc Hs). split; reflexivity.
Qed.

Lemma payload_too_large_413_witness :
  MAX_CONTENT_LENGTH Examples.no_secret = 1048576
  /\ bitgo_webhook Examples.cpython Examples.no_secret
       (Request [(hs "Content-Type", hs "application/json")] (Some 1048577%N) [])
     = payload_too_large
  /\ http_status Examples.cpython Examples.no_secret
       (Request [(hs "Content-Type", hs "application/json")] (Some 1048577%N) []) = 413.
Proof.
  split; [reflexivity|].
  apply (payload_too_large_413 Examples.cpython Examples.no_secret _ 1048577%N);
    [vm_compute; discriminate | reflexivity | reflexivity | reflexivity].
Defined.

(** How line 63 chooses the signature. *)
Lemma received_signature_first (req : request) (v : hstr) :
  Headers.get req "X-Signature-SHA256" = Some v -> v <> [] ->
  received_signature req = v.
Proof.
  intros H Hne. unfold received_signature. rewrite H.
  destruct v; [contradiction | reflexivity].
Qed.

Lemma received_signature_fallback (req : request) :
  Headers.get req "X-Signature-SHA256" = None
  \/ Headers.get req "X-Signature-SHA256" = Some [] ->
  received_signature req = Headers.get_default req "X-Hub-Signature-256" [].
Proof.
  intros [H | H]; unfold received_signature; rewrite H; reflexivity.
Qed.

(** C5, as stated, fails: with the secret Jefe, an empty X-Signature-SHA256
    header and a correct X-Hub-Signature-256 header, the signature of the
    first header (present, so no fallback) does not verify, and the request
    is accepted on the strength of the second. *)
Lemma empty_first_header_falls_back :
  let req := Examples.post [("X-Signature-SHA256"%string, EmptyString);
                            ("X-Hub-Signature-256"%string, Examples.empty_object_hex)]
                           (Examples.json_bytes "{}") in
  content_type_ok req = true
  /\ too_large Examples.with_secret req = false
  /\ Headers.get req "X-Signature-SHA256" = Some []
  /\ verify_hmac_sha256 (HMAC_SECRET Examples.with_secret) (data req)
                        (Spec.signature_header req) = Ok false
  /\ http_status Examples.cpython Examples.with_secret req = 200.
Proof. cbv zeta. repeat split; vm_compute; reflexivity. Qed.

(** C5 (amended): for a POST that passes the content-type and size checks,
    the signature is the X-Signature-SHA256 header when that is present and
    not empty, and otherwise the X-Hub-Signature-256 header (empty when
    missing); when the verifier returns false for it, the handler logs a
    warning and answers 401. *)
Theorem invalid_signature_401 (py : interpreter) (cfg : config) (req : request) :
  content_type_ok req = true ->
  too_large cfg req = false ->
  (forall v, Headers.get req "X-Signature-SHA256" = Some v -> v <> [] ->
             received_signature req = v)
  /\ (Headers.get req "X-Signature-SHA256" = None
      \/ Headers.get req "X-Signature-SHA256" = Some [] ->
      received_signature req = Headers.get_default req "X-Hub-Signature-256" [])
  /\ (verify_hmac_sha256 (HMAC_SECRET cfg) (data req) (received_signature req) = Ok false ->
      bitgo_webhook py cfg req
      = ([(WARNING, Signature_verification_failed)],
         Ok (error_response "Invalid signature" 401))
      /\ http_status py cfg req = 401).
Proof.
  intros Hc Hs. split; [|split].
  - apply received_signature_first.
  - apply received_signature_fallback.
  - intro Hv. unfold http_status. rewrite (webhook_signature py cfg req Hc Hs Hv).
    split; reflexivity.
Qed.

Lemma invalid_signature_401_witness :
  let req := Examples.post [("X-Signature-SHA256"%string, Examples.rfc_hex)]
                           (Examples.json_bytes "{}") in
  received_signature req = hs Examples.rfc_hex
  /\ bitgo_webhook Examples.cpython Examples.with_secret req
     = ([(WARNING, Signature_verification_failed)],
        Ok (error_response "Invalid signature" 401))
  /\ http_status Examples.cpython Examples.with_secret req = 401.
Proof.
  cbv zeta.
  destruct (invalid_signature_401 Examples.cpython Examples.with_secret
              (Examples.post [("X-Signature-SHA256"%string, Examples.rfc_hex)]
                             (Examples.json_bytes "{}"))
              eq_refl eq_refl) as [Hfirst [_ H401]].
  split.
  - apply Hfirst; [reflexivity | discriminate].
  - apply H401. vm_compute. reflexivity.
Defined.

(** ** Parsing the body *)

Lemma loads_empty_object (py : interpreter) :
  (0 < recursion_headroom py)%nat -> Json.loads py (ustr "{}") = Ok (JObject []).
Proof.
  destruct py as [[|headroom] digits]; simpl; [lia | reflexivity].
Qed.

(** An empty body is read as an empty object and acknowledged. *)
Lemma empty_body_acknowledged (py : interpreter) (cfg : config) (req : request) :
  (0 < recursion_headroom py)%nat ->
  content_type_ok req = true -> too_large cfg req = false ->
  verify_hmac_sha256 (HMAC_SECRET cfg) (data req) (received_signature req) = Ok true ->
  data req = [] ->
  bitgo_webhook py cfg req
  = ([(INFO, Webhook_received JNull JNull); (INFO, Other_webhook_type JNull)],
     Ok acknowledged).
Proof.
  intros Hpy Hc Hs Hv He.
  rewrite (webhook_parse py cfg req [] Hc Hs Hv) by (rewrite He; reflexivity).
  cbn [or_empty_object]. rewrite (loads_empty_object py Hpy). reflexivity.
Qed.

(** C2, as stated, fails: the empty body passes the three checks and is
    not JSON, and the handler answers 200. *)
Lemma empty_body_is_accepted :
  let req := Examples.post [] [] in
  content_type_ok req = true
  /\ too_large Examples.no_secret req = false
  /\ verify_hmac_sha256 (HMAC_SECRET Examples.no_secret) (data req)
                        (received_signature req) = Ok true
  /\ Spec.parse_utf8_json Examples.cpython (data req) = None
  /\ http_status Examples.cpython Examples.no_secret req = 200.
Proof. cbv zeta. repeat split. Qed.

(** C2 (amended): for a POST that passes the content-type, size and
    signature checks and whose body is not empty and decodes as UTF-8: when
    [json.loads] rejects the text as malformed the handler logs an error
    and answers 400, and when the text is JSON but not an object the handler
    answers 400.  An empty body is read as an empty object and answered
    with 200. *)
Theorem malformed_or_non_object_400 (py : interpreter) (cfg : config) (req : request) :
  content_type_ok req = true ->
  too_large cfg req = false ->
  verify_hmac_sha256 (HMAC_SECRET cfg) (data req) (received_signature req) = Ok true ->
  (forall text,
      data req <> [] -> Utf8.decode (data req) = Ok text ->
      Json.loads py text = Raise JSONDecodeError ->
      bitgo_webhook py cfg req = invalid_json /\ http_status py cfg req = 400)
  /\ (forall text v,
         data req <> [] -> Utf8.decode (data req) = Ok text ->
         Json.loads py text = Ok v -> (forall d, v <> JObject d) ->
         bitgo_webhook py cfg req = object_required /\ http_status py cfg req = 400)
  /\ (data req = [] -> (0 < recursion_headroom py)%nat -> http_status py cfg req = 200).
Proof.
  intros Hc Hs Hv. split; [|split].
  - intros text Hne Hd Hl. unfold http_status.
    rewrite (webhook_parse py cfg req text Hc Hs Hv Hd).
    rewrite (decode_nonempty _ _ Hne Hd), Hl. split; reflexivity.
  - intros text v Hne Hd Hl Hno. unfold http_status.
    rewrite (webhook_parse py cfg req text Hc Hs Hv Hd).
    rewrite (decode_nonempty _ _ Hne Hd), Hl.
    destruct v; try (split; reflexivity).
    exfalso. exact (Hno _ eq_refl).
  - intros He Hpy. unfold http_status.
    rewrite (empty_body_acknowledged py cfg req Hpy Hc Hs Hv He). reflexivity.
Qed.

Lemma malformed_or_non_object_400_witness :
  http_status Examples.cpython Examples.no_secret
              (Examples.post [] (Examples.json_bytes "{'type':")) = 400
  /\ http_status Examples.cpython Examples.no_secret
                 (Examples.post [] (Examples.json_bytes "[1,2,3]")) = 400.
Proof.
  split.
  - destruct (malformed_or_non_object_400 Examples.cpython Examples.no_secret
                (Examples.post [] (Examples.json_bytes "{'type':"))
                eq_refl eq_refl eq_refl) as [Hbad _].
    apply (Hbad (ustr "{" ++ [34%N] ++ ustr "type" ++ [34%N] ++ ustr ":"));
      [discriminate | reflexivity | reflexivity].
  - destruct (malformed_or_non_object_400 Examples.cpython Examples.no_secret
                (Examples.post [] (Examples.json_bytes "[1,2,3]"))
                eq_refl eq_refl eq_refl) as [_ [Harr _]].
    apply (Harr (ustr "[1,2,3]") (JArray [JInt 1; JInt 2; JInt 3]));
      [discriminate | reflexivity | reflexivity | discriminate].
Defined.

(** C3, where the code departs from it: the body of
    [Examples.transfer_with_text_value] passes every check and parses to a
    JSON object, yet the handler ends with [AttributeError] at
    [value.get("amount")] (line 86) after its first log line, and the
    request is answered with 500, not 200. *)
Theorem confirmed_transfer_with_text_value_fails :
  let req := Examples.post [] Examples.transfer_with_text_value in
  (exists d, Spec.parse_utf8_json Examples.cpython (data req) = Some (JObject d))
  /\ bitgo_webhook Examples.cpython Examples.no_secret req
     = ([(INFO, Webhook_received (JString (ustr "transfer")) (JString (ustr "confirmed")))],
        Raise AttributeError)
  /\ http_status Examples.cpython Examples.no_secret req = 500.
Proof.
  cbv zeta. split; [|split].
  - eexists. vm_compute. reflexivity.
  - vm_compute. reflexivity.
  - vm_compute. reflexivity.
Qed.

(** The acceptance example of the specification: the confirmed transfer is
    logged with its amount, currency and transaction id, and acknowledged. *)
Example confirmed_transfer_acknowledged :
  bitgo_webhook Examples.cpython Examples.no_secret (Examples.post [] Examples.confirmed_transfer)
  = ([(INFO, Webhook_received (JString (ustr "transfer")) (JString (ustr "confirmed")));
      (INFO, Deposit_confirmed (JString (ustr "1.5")) (JString (ustr "BTC"))
                               (JString (ustr "abc123")))],
     Ok acknowledged).
Proof. vm_compute. reflexivity. Qed.

(** A body that parses to an object is acknowledged whenever the event is
    not a confirmed transfer, or its [value] is an object, missing or
    falsy. *)
Lemma object_acknowledged (py : interpreter) (cfg : config) (req : request) (text : pystr)
      (d : list (pystr * json)) :
  content_type_ok req = true -> too_large cfg req = false ->
  verify_hmac_sha256 (HMAC_SECRET cfg) (data req) (received_signature req) = Ok true ->
  Utf8.decode (data req) = Ok text ->
  Json.loads py (or_empty_object text) = Ok (JObject d) ->
  (Py.eq_str (Py.dict_get d (ustr "type") JNull) (ustr "transfer")
   && Py.eq_str (Py.dict_get d (ustr "state") JNull) (ustr "confirmed") = false
   \/ forall v, Py.dict_lookup (ustr "value") d = Some v ->
                Py.truthy v = false \/ exists m, v = JObject m) ->
  snd (bitgo_webhook py cfg req) = Ok acknowledged /\ http_status py cfg req = 200.
Proof.
  intros Hc Hs Hv Hd Hl Hev. unfold http_status.
  rewrite (webhook_parse py cfg req text Hc Hs Hv Hd), Hl.
  assert (E : snd (process_event d) = Ok acknowledged).
  { destruct Hev as [H | H];
      [apply process_event_not_deposit, H | apply process_event_deposit, H]. }
  rewrite E. split; reflexivity.
Qed.

(** ** The order of the checks *)

(** C8: the checks apply in the order content type, size, signature, JSON:
    each status is decided by the first check that fails, whatever the
    later checks would say. *)
Theorem checks_in_order (py : interpreter) (cfg : config) (req : request) :
  (content_type_ok req = false -> http_status py cfg req = 415)
  /\ (content_type_ok req = true -> too_large cfg req = true ->
      http_status py cfg req = 413)
  /\ (content_type_ok req = true -> too_large cfg req = false ->
      verify_hmac_sha256 (HMAC_SECRET cfg) (data req) (received_signature req) = Ok false ->
      http_status py cfg req = 401)
  /\ (content_type_ok req = true -> too_large cfg req = false ->
      verify_hmac_sha256 (HMAC_SECRET cfg) (data req) (received_signature req) = Ok true ->
      forall text, Utf8.decode (data req) = Ok text ->
      Json.loads py (or_empty_object text) = Raise JSONDecodeError
      \/ (exists v, Json.loads py (or_empty_object text) = Ok v
                    /\ forall d, v <> JObject d) ->
      http_status py cfg req = 400).
Proof.
  unfold http_status. repeat split.
  - intro Hc. rewrite (webhook_content_type py cfg req Hc). reflexivity.
  - intros Hc Hs. rewrite (webhook_size py cfg req Hc Hs). reflexivity.
  - intros Hc Hs Hv. rewrite (webhook_signature py cfg req Hc Hs Hv). reflexivity.
  - intros Hc Hs Hv text Hd Hp.
    rewrite (webhook_parse py cfg req text Hc Hs Hv Hd).
    destruct Hp as [Hl | [v [Hl Hno]]]; rewrite Hl; [reflexivity|].
    destruct v; try reflexivity. exfalso. exact (Hno _ eq_refl).
Qed.

(** A request that fails all four checks at once (not JSON by content type,
    longer than the limit, wrongly signed, not JSON by content) gets the
    status of the first; made to pass that one, the status of the second;
    and so on. *)
Lemma checks_in_order_witness :
  let bad_sig := [("X-Signature-SHA256"%string, Examples.rfc_hex)] in
  let cfg := Config 4 (ustr "Jefe") in
  let unsigned := Config 4 [] in
  http_status Examples.cpython cfg
              (Examples.post_as "text/plain" bad_sig (Examples.json_bytes "[1,2,3")) = 415
  /\ http_status Examples.cpython cfg
                 (Examples.post bad_sig (Examples.json_bytes "[1,2,3")) = 413
  /\ http_status Examples.cpython cfg
                 (Examples.post bad_sig (Examples.json_bytes "[1,2")) = 401
  /\ http_status Examples.cpython unsigned
                 (Examples.post bad_sig (Examples.json_bytes "[1,2")) = 400.
Proof.
  cbv zeta. split; [|split; [|split]].
  - apply (proj1 (checks_in_order Examples.cpython _ _)). reflexivity.
  - apply (proj1 (proj2 (checks_in_order Examples.cpython _ _))); reflexivity.
  - apply (proj1 (proj2 (proj2 (checks_in_order Examples.cpython _ _))));
      [reflexivity | reflexivity | vm_compute; reflexivity].
  - apply (proj2 (proj2 (proj2 (checks_in_order Examples.cpython _ _))))
      with (text := ustr "[1,2"); [reflexivity .. | left; reflexivity].
Defined.

(** ** Exceptions the handler does not catch *)

(** A body that is not UTF-8: [UnicodeDecodeError] is not a
    [JSONDecodeError], the request is answered with 500. *)
Example invalid_utf8_body :
  bitgo_webhook Examples.cpython Examples.no_secret (Examples.post [] [xff])
  = ([], Raise UnicodeDecodeError)
  /\ http_status Examples.cpython Examples.no_secret (Examples.post [] [xff]) = 500.
Proof. split; reflexivity. Qed.

(** A signature with a character outside ASCII (here U+00E9) while a secret
    is configured: [hmac.compare_digest] raises [TypeError]. *)
Example non_ascii_signature :
  let req := Request [(hs "Content-Type", hs "application/json");
                      (hs "X-Signature-SHA256", [ascii_of_N 233])]
                     (Some 2%N) (Examples.json_bytes "{}") in
  bitgo_webhook Examples.cpython Examples.with_secret req = ([], Raise TypeError)
  /\ http_status Examples.cpython Examples.with_secret req = 500.
Proof. cbv zeta. split; vm_compute; reflexivity. Qed.

(** JSON nested deeper than the recursion limit allows, and an integer of
    more digits than [int] accepts. *)
Example nested_too_deep :
  http_status (Interpreter 3 4300) Examples.no_secret
              (Examples.post [] (Examples.json_bytes "{'a':[[[1]]]}")) = 500
  /\ http_status (Interpreter 4 4300) Examples.no_secret
                 (Examples.post [] (Examples.json_bytes "{'a':[[[1]]]}")) = 200.
Proof. split; vm_compute; reflexivity. Qed.

Example integer_too_long :
  http_status Examples.cpython Examples.no_secret
              (Examples.post [] (repeat x39 4301)) = 500
  /\ http_status Examples.cpython Examples.no_secret
                 (Examples.post [] (repeat x39 4300)) = 400.
Proof. split; vm_compute; reflexivity. Qed.

(** * Further properties of the code *)

(** ** Text: lower-casing and stripping *)

Lemma lower_char_nonascii (c : ascii) :
  (code c <? 128)%N = false -> (code (Str.lower_char c) <? 128)%N = false.
Proof.
  destruct c as [[] [] [] [] [] [] [] []]; vm_compute; intro H;
    first [reflexivity | discriminate H].
Qed.

Lemma isascii_lower (s : hstr) : Str.isascii (Str.lower s) = Str.isascii s.
Proof.
  induction s as [|c s IH]; [reflexivity|]. cbn [Str.lower map Str.isascii forallb].
  fold (Str.lower s). fold (Str.isascii (Str.lower s)). fold (Str.isascii s). rewrite IH.
  destruct ((code c <? 128)%N) eqn:E.
  - rewrite (lower_char_ascii c E). reflexivity.
  - rewrite (lower_char_nonascii c E). reflexivity.
Qed.

Lemma lower_char_idem (c : ascii) : Str.lower_char (Str.lower_char c) = Str.lower_char c.
Proof. destruct c as [[] [] [] [] [] [] [] []]; reflexivity. Qed.

Lemma lower_char_equals (c : ascii) :
  Ascii.eqb "="%char (Str.lower_char c) = Ascii.eqb "="%char c.
Proof. destruct c as [[] [] [] [] [] [] [] []]; reflexivity. Qed.

Lemma lower_char_space (c : ascii) :
  Str.isspace (code (Str.lower_char c)) = Str.isspace (code c).
Proof. destruct c as [[] [] [] [] [] [] [] []]; reflexivity. Qed.

Lemma space_not_equals (c : ascii) :
  Str.isspace (code c) = true -> Ascii.eqb "="%char c = false.
Proof.
  destruct c as [[] [] [] [] [] [] [] []]; vm_compute; intro H;
    first [reflexivity | discriminate H].
Qed.

Lemma lower_idem (s : hstr) : Str.lower (Str.lower s) = Str.lower s.
Proof.
  unfold Str.lower. rewrite map_map. apply map_ext. intro c. apply lower_char_idem.
Qed.

Lemma contains_char_lower (s : hstr) :
  Str.contains_char "="%char (Str.lower s) = Str.contains_char "="%char s.
Proof.
  induction s as [|c s IH]; [reflexivity|].
  unfold Str.contains_char in *. cbn [Str.lower map existsb].
  rewrite lower_char_equals. f_equal. exact IH.
Qed.

Lemma split_once_lower (s : hstr) :
  Str.split_once "="%char (Str.lower s)
  = (Str.lower (fst (Str.split_once "="%char s)),
     option_map Str.lower (snd (Str.split_once "="%char s))).
Proof.
  induction s as [|c s IH]; [reflexivity|].
  cbn [Str.lower map Str.split_once]. rewrite lower_char_equals.
  destruct (Ascii.eqb "="%char c); [reflexivity|].
  fold (Str.lower s). rewrite IH.
  destruct (Str.split_once "="%char s) as [before after]. reflexivity.
Qed.

Lemma normalize_sig_lower (s : hstr) :
  normalize_sig (Str.lower s) = Str.lower (normalize_sig s).
Proof.
  unfold normalize_sig. rewrite contains_char_lower, split_once_lower.
  destruct (Str.contains_char "="%char s); [|reflexivity].
  cbn [snd]. destruct (snd (Str.split_once "="%char s)); reflexivity.
Qed.

Section StripLemmas.

Context {A : Type} (space : A -> bool).

Lemma lstrip_app (s t : list A) :
  Str.lstrip space (s ++ t)
  = match Str.lstrip space s with
    | [] => Str.lstrip space t
    | c :: r => (c :: r) ++ t
    end.
Proof.
  induction s as [|c s IH]; simpl.
  - destruct (Str.lstrip space t); reflexivity.
  - destruct (space c); [exact IH | reflexivity].
Qed.

Lemma lstrip_spaces_app (w s : list A) :
  forallb space w = true -> Str.lstrip space (w ++ s) = Str.lstrip space s.
Proof.
  intro H. rewrite lstrip_app, (lstrip_all_space space w H). reflexivity.
Qed.

Lemma lstrip_head (s : list A) (c : A) (r : list A) :
  Str.lstrip space s = c :: r -> space c = false.
Proof.
  induction s as [|x s IH]; simpl; [discriminate|].
  destruct (space x) eqn:E; [exact IH|]. intro H. injection H as <- _. exact E.
Qed.

Lemma lstrip_id (c : A) (r : list A) :
  space c = false -> Str.lstrip space (c :: r) = c :: r.
Proof. intro H. simpl. rewrite H. reflexivity. Qed.

Lemma rstrip_app_spaces (s w : list A) :
  forallb space w = true -> Str.rstrip space (s ++ w) = Str.rstrip space s.
Proof.
  intro H. unfold Str.rstrip. rewrite rev_app_distr, lstrip_spaces_app; [reflexivity|].
  rewrite forallb_forall in *. intros x Hx. apply H, in_rev, Hx.
Qed.

Lemma rstrip_cons (c : A) (r : list A) :
  space c = false -> Str.rstrip space (c :: r) = c :: Str.rstrip space r.
Proof.
  intro H. unfold Str.rstrip. cbn [rev]. rewrite lstrip_app.
  destruct (Str.lstrip space (rev r)) as [|x t].
  - simpl. rewrite H. reflexivity.
  - rewrite rev_app_distr. reflexivity.
Qed.

(** White space around a text does not change what [strip] returns. *)
Lemma strip_padding (w1 s w2 : list A) :
  forallb space w1 = true -> forallb space w2 = true ->
  Str.strip space (w1 ++ s ++ w2) = Str.strip space s.
Proof.
  intros H1 H2. unfold Str.strip. rewrite (lstrip_spaces_app w1 _ H1), lstrip_app.
  destruct (Str.lstrip space s) as [|c r].
  - rewrite (lstrip_all_space space w2 H2). reflexivity.
  - apply rstrip_app_spaces, H2.
Qed.

Lemma strip_head (s : list A) (c : A) (r : list A) :
  Str.strip space s = c :: r -> space c = false.
Proof.
  unfold Str.strip. destruct (Str.lstrip space s) as [|x t] eqn:E.
  - discriminate.
  - pose proof (lstrip_head s x t E) as Hx. rewrite (rstrip_cons x t Hx).
    intro H. injection H as <- _. exact Hx.
Qed.

Lemma rstrip_last (s : list A) (c : A) (r : list A) :
  rev (Str.rstrip space s) = c :: r -> space c = false.
Proof.
  unfold Str.rstrip. rewrite rev_involutive. apply lstrip_head.
Qed.

Lemma strip_last (s : list A) (c : A) (r : list A) :
  rev (Str.strip space s) = c :: r -> space c = false.
Proof. unfold Str.strip. apply rstrip_last. Qed.

Lemma rstrip_id (s : list A) (c : A) (r : list A) :
  rev s = c :: r -> space c = false -> Str.rstrip space s = s.
Proof.
  intros Hr Hc. unfold Str.rstrip. rewrite Hr, (lstrip_id c r Hc), <- Hr.
  apply rev_involutive.
Qed.

Lemma strip_idem (s : list A) : Str.strip space (Str.strip space s) = Str.strip space s.
Proof.
  destruct (Str.strip space s) as [|c r] eqn:E; [reflexivity|].
  pose proof (strip_head s c r E) as Hc.
  unfold Str.strip at 1. rewrite (lstrip_id c r Hc).
  destruct (rev (c :: r)) as [|x t] eqn:Er.
  - apply (f_equal (@length A)) in Er. rewrite length_rev in Er. discriminate Er.
  - apply (rstrip_id _ x t Er). apply (strip_last s x t). rewrite E. exact Er.
Qed.

End StripLemmas.

Lemma lstrip_lower (s : hstr) :
  Str.lstrip (fun c => Str.isspace (code c)) (Str.lower s)
  = Str.lower (Str.lstrip (fun c => Str.isspace (code c)) s).
Proof.
  induction s as [|c s IH]; [reflexivity|].
  cbn [Str.lower map Str.lstrip]. rewrite lower_char_space.
  destruct (Str.isspace (code c)); [exact IH | reflexivity].
Qed.

Lemma hstrip_lower (s : hstr) : Str.hstrip (Str.lower s) = Str.lower (Str.hstrip s).
Proof.
  unfold Str.hstrip, Str.strip, Str.rstrip.
  rewrite lstrip_lower. unfold Str.lower at 1. rewrite <- map_rev.
  fold (Str.lower (rev (Str.lstrip (fun c => Str.isspace (code c)) s))).
  rewrite lstrip_lower. unfold Str.lower. rewrite map_rev. reflexivity.
Qed.

Lemma isascii_lstrip (s : hstr) :
  Str.isascii s = true -> Str.isascii (Str.lstrip (fun c => Str.isspace (code c)) s) = true.
Proof.
  induction s as [|c s IH]; [reflexivity|]. intro H. cbn [Str.lstrip].
  destruct (Str.isspace (code c)); [|exact H].
  apply IH. unfold Str.isascii in H. cbn [forallb] in H.
  apply andb_true_iff in H. apply H.
Qed.

Lemma isascii_rev (s : hstr) : Str.isascii (rev s) = Str.isascii s.
Proof.
  unfold Str.isascii. induction s as [|c s IH]; [reflexivity|].
  cbn [rev forallb]. rewrite forallb_app, IH. cbn [forallb].
  rewrite andb_true_r. apply andb_comm.
Qed.

Lemma isascii_hstrip (s : hstr) : Str.isascii s = true -> Str.isascii (Str.hstrip s) = true.
Proof.
  intro H. unfold Str.hstrip, Str.strip, Str.rstrip.
  rewrite isascii_rev. apply isascii_lstrip. rewrite isascii_rev.
  apply isascii_lstrip, H.
Qed.

Lemma isascii_split_once (s after : hstr) :
  Str.isascii s = true -> snd (Str.split_once "="%char s) = Some after ->
  Str.isascii after = true.
Proof.
  induction s as [|c s IH]; [discriminate|]. intros H. cbn [Str.split_once].
  unfold Str.isascii in H. cbn [forallb] in H. apply andb_true_iff in H.
  destruct H as [_ Hs].
  destruct (Ascii.eqb "="%char c).
  - intro E. injection E as <-. exact Hs.
  - destruct (Str.split_once "="%char s) as [b a]. cbn [snd] in *. apply IH, Hs.
Qed.

Lemma isascii_normalize_sig (s : hstr) :
  Str.isascii s = true -> Str.isascii (normalize_sig s) = true.
Proof.
  intro H. unfold normalize_sig.
  destruct (Str.contains_char "="%char s); [|exact H].
  destruct (snd (Str.split_once "="%char s)) as [after|] eqn:E; [|exact H].
  apply (isascii_split_once s after H E).
Qed.

Lemma split_once_prefix (p s : hstr) :
  Str.contains_char "="%char p = false ->
  Str.split_once "="%char (p ++ "="%char :: s) = (p, Some s).
Proof.
  induction p as [|c p IH]; intro H.
  - reflexivity.
  - unfold Str.contains_char in H. cbn [existsb] in H.
    apply orb_false_iff in H. destruct H as [Hc Hp].
    cbn [app Str.split_once]. rewrite Hc, (IH Hp). reflexivity.
Qed.

Lemma contains_char_app (c : ascii) (a b : hstr) :
  Str.contains_char c (a ++ b) = Str.contains_char c a || Str.contains_char c b.
Proof. unfold Str.contains_char. apply existsb_app. Qed.

(** Everything up to the first "=" is dropped. *)
Lemma normalize_sig_prefix (p s : hstr) :
  Str.contains_char "="%char p = false -> normalize_sig (p ++ "="%char :: s) = s.
Proof.
  intro H. unfold normalize_sig.
  rewrite contains_char_app, (split_once_prefix p s H).
  replace (Str.contains_char "="%char ("="%char :: s)) with true by reflexivity.
  rewrite orb_true_r. reflexivity.
Qed.

Lemma encode_raises (s : pystr) (e : exn) :
  Str.encode s = Raise e -> e = UnicodeEncodeError.
Proof.
  unfold Str.encode. destruct (Str.encode_utf8 s); [discriminate|].
  intro H. injection H as <-. reflexivity.
Qed.

Lemma hex_lower (bs : bytes) : Str.lower (Str.hex bs) = Str.hex bs.
Proof.
  induction bs as [|b bs IH]; [reflexivity|].
  unfold Str.hex in *. cbn [flat_map]. unfold Str.lower in *.
  rewrite map_app, IH. f_equal. destruct b; reflexivity.
Qed.

(** ** The verifier: what does not matter to it *)

(** X1: the verifier's answer, an exception included, does not depend on the
    case of the received signature, its prefix included. *)
Theorem verify_ignores_case (secret : pystr) (raw_body : bytes) (sig : hstr) :
  verify_hmac_sha256 secret raw_body (Str.lower sig)
  = verify_hmac_sha256 secret raw_body sig.
Proof.
  destruct secret as [|c secret]; [reflexivity|].
  destruct sig as [|g sig]; [reflexivity|].
  rewrite !verify_with_secret by discriminate.
  rewrite normalize_sig_lower, hstrip_lower, lower_idem. reflexivity.
Qed.

(** X2: whatever precedes the first "=" of the signature is dropped unread:
    the name of the algorithm is never checked. *)
Theorem verify_ignores_prefix (secret : pystr) (raw_body : bytes) (p s : hstr) :
  Str.contains_char "="%char p = false ->
  verify_hmac_sha256 secret raw_body (p ++ "="%char :: s)
  = verify_hmac_sha256 secret raw_body ("="%char :: s).
Proof.
  intro H. destruct secret as [|c secret]; [reflexivity|].
  rewrite !verify_with_secret by (discriminate || (destruct p; discriminate)).
  rewrite (normalize_sig_prefix p s H).
  rewrite (normalize_sig_prefix [] s eq_refl : normalize_sig ("="%char :: s) = s).
  reflexivity.
Qed.

Lemma verify_ignores_prefix_witness :
  verify_hmac_sha256 (ustr "Jefe") Examples.rfc_body (hs "md5" ++ "="%char :: hs Examples.rfc_hex)
  = verify_hmac_sha256 (ustr "Jefe") Examples.rfc_body ("="%char :: hs Examples.rfc_hex)
  /\ verify_hmac_sha256 (ustr "Jefe") Examples.rfc_body
                        (hs "md5" ++ "="%char :: hs Examples.rfc_hex) = Ok true.
Proof.
  split.
  - apply verify_ignores_prefix. reflexivity.
  - vm_compute. reflexivity.
Defined.

Lemma normalize_sig_padding (w1 s w2 : hstr) :
  forallb (fun c => Str.isspace (code c)) w1 = true ->
  forallb (fun c => Str.isspace (code c)) w2 = true ->
  Str.hstrip (normalize_sig (w1 ++ s ++ w2)) = Str.hstrip (normalize_sig s).
Proof.
  intros H1 H2.
  assert (N1 : Str.contains_char "="%char w1 = false).
  { unfold Str.contains_char. clear H2. induction w1 as [|c w IH]; [reflexivity|].
    cbn [forallb existsb] in *. apply andb_true_iff in H1. destruct H1 as [Hc Hw].
    rewrite (space_not_equals c Hc), (IH Hw). reflexivity. }
  assert (N2 : Str.contains_char "="%char w2 = false).
  { unfold Str.contains_char. clear H1 N1. induction w2 as [|c w IH]; [reflexivity|].
    cbn [forallb existsb] in *. apply andb_true_iff in H2. destruct H2 as [Hc Hw].
    rewrite (space_not_equals c Hc), (IH Hw). reflexivity. }
  unfold normalize_sig at 1. rewrite !contains_char_app, N1, N2, orb_false_r. cbn [orb].
  unfold normalize_sig.
  destruct (Str.contains_char "="%char s) eqn:Es.
  - assert (Hsplit : exists p t, s = p ++ "="%char :: t
                                 /\ Str.contains_char "="%char p = false).
    { clear -Es. unfold Str.contains_char in *.
      induction s as [|c s IH]; [discriminate|]. cbn [existsb] in Es.
      destruct (Ascii.eqb "="%char c) eqn:Ec.
      - apply Ascii.eqb_eq in Ec. subst c. exists [], s. split; reflexivity.
      - destruct (IH Es) as [p [t [-> Hp]]]. exists (c :: p), t. split; [reflexivity|].
        cbn [existsb]. rewrite Ec, Hp. reflexivity. }
    destruct Hsplit as [p [t [-> Hp]]].
    replace (w1 ++ (p ++ "="%char :: t) ++ w2) with ((w1 ++ p) ++ "="%char :: (t ++ w2))
      by (rewrite <- !app_assoc; reflexivity).
    rewrite split_once_prefix by (rewrite contains_char_app, N1, Hp; reflexivity).
    rewrite (split_once_prefix p t Hp). cbn [snd].
    apply (strip_padding _ [] t w2 eq_refl H2).
  - assert (Hnone : forall x, Str.contains_char "="%char x = false ->
                              snd (Str.split_once "="%char x) = None).
    { clear. unfold Str.contains_char. induction x as [|c x IH]; [reflexivity|].
      cbn [existsb Str.split_once]. intro H. apply orb_false_iff in H.
      destruct H as [Hc Hx]. rewrite Hc.
      specialize (IH Hx). destruct (Str.split_once "="%char x). cbn [snd] in *. exact IH. }
    apply (strip_padding _ w1 s w2 H1 H2).
Qed.

(** X3: white space before and after a signature is not part of it. *)
Theorem verify_ignores_padding (secret : pystr) (raw_body : bytes) (w1 s w2 : hstr) :
  forallb (fun c => Str.isspace (code c)) w1 = true ->
  forallb (fun c => Str.isspace (code c)) w2 = true ->
  s <> [] ->
  verify_hmac_sha256 secret raw_body (w1 ++ s ++ w2) = verify_hmac_sha256 secret raw_body s.
Proof.
  intros H1 H2 Hs. destruct secret as [|c secret]; [reflexivity|].
  rewrite !verify_with_secret;
    [| discriminate | exact Hs | discriminate
     | destruct w1; [destruct s; [contradiction | discriminate] | discriminate]].
  rewrite (normalize_sig_padding w1 s w2 H1 H2). reflexivity.
Qed.

Lemma verify_ignores_padding_witness :
  verify_hmac_sha256 (ustr "Jefe") Examples.rfc_body
                     (hs "  " ++ hs Examples.rfc_hex ++ [ascii_of_N 9; ascii_of_N 160])
  = verify_hmac_sha256 (ustr "Jefe") Examples.rfc_body (hs Examples.rfc_hex).
Proof. apply verify_ignores_padding; [reflexivity | reflexivity | discriminate]. Defined.

(** ** The verifier: when it raises, what it accepts *)

(** X4: with a secret that encodes as UTF-8 and a signature of ASCII
    characters the verifier never raises: it answers true or false. *)
Theorem verify_ascii_never_raises (secret : pystr) (raw_body : bytes) (sig : hstr)
        (key : bytes) :
  Str.encode secret = Ok key -> Str.isascii sig = true ->
  exists b : bool, verify_hmac_sha256 secret raw_body sig = Ok b.
Proof.
  intros Hk Ha. destruct secret as [|c secret]; [exists true; reflexivity|].
  destruct sig as [|g sig]; [exists false; reflexivity|].
  rewrite verify_with_secret by discriminate. rewrite Hk. unfold compare_digest.
  rewrite (lower_isascii _ (hex_isascii _)).
  rewrite (lower_isascii _ (isascii_hstrip _ (isascii_normalize_sig _ Ha))).
  eexists. reflexivity.
Qed.

Lemma verify_ascii_never_raises_witness :
  exists b : bool,
    verify_hmac_sha256 (ustr "Jefe") Examples.rfc_body (hs "sha256=not-a-digest") = Ok b.
Proof.
  apply (verify_ascii_never_raises _ _ _ (bytes_of_string "Jefe")); reflexivity.
Defined.

(** X5: the verifier ends in [TypeError] exactly when a secret is
    configured and encodes, a signature was received, and what is left of
    the signature after its prefix and surrounding white space has a
    character outside ASCII. *)
Theorem verify_type_error_iff (secret : pystr) (raw_body : bytes) (sig : hstr) :
  verify_hmac_sha256 secret raw_body sig = Raise TypeError
  <-> secret <> [] /\ sig <> []
      /\ (exists key, Str.encode secret = Ok key)
      /\ Str.isascii (Str.hstrip (normalize_sig sig)) = false.
Proof.
  destruct secret as [|c secret].
  { split; [discriminate | intros [H _]; contradiction]. }
  destruct sig as [|g sig].
  { split; [discriminate | intros [_ [H _]]; contradiction]. }
  rewrite verify_with_secret by discriminate.
  destruct (Str.encode (c :: secret)) as [key|e] eqn:Ek.
  - unfold compare_digest. rewrite (lower_isascii _ (hex_isascii _)), isascii_lower.
    cbn [andb].
    destruct (Str.isascii (Str.hstrip (normalize_sig (g :: sig)))).
    + split; [discriminate | intros [_ [_ [_ H]]]; discriminate H].
    + split; [|reflexivity]. intros _.
      repeat split; try discriminate. exists key. reflexivity.
  - split.
    + intro H. injection H as ->. apply encode_raises in Ek. discriminate Ek.
    + intros [_ [_ [[key Hk] _]]]. discriminate Hk.
Qed.

(** X6: an accepted signature is, once its prefix and the white space
    around it are removed, exactly 64 characters long and all ASCII: no
    shortened or extended digest is ever accepted. *)
Theorem verify_accepts_only_64 (secret : pystr) (raw_body : bytes) (sig : hstr) :
  secret <> [] ->
  verify_hmac_sha256 secret raw_body sig = Ok true ->
  length (Str.hstrip (normalize_sig sig)) = 64%nat
  /\ Str.isascii (Str.hstrip (normalize_sig sig)) = true.
Proof.
  intros Hs Hv. destruct sig as [|g sig].
  { rewrite verify_empty_signature in Hv by assumption. discriminate Hv. }
  rewrite verify_with_secret in Hv by (assumption || discriminate).
  destruct (Str.encode secret) as [key|e]; [|discriminate Hv].
  pose proof Hv as Hc.
  apply compare_digest_true in Hv; [|apply lower_isascii, hex_isascii].
  split.
  - apply (f_equal (@length ascii)) in Hv.
    rewrite !lower_length, hex_length, hmac_digest_length in Hv. exact Hv.
  - rewrite <- isascii_lower. rewrite Hv. apply lower_isascii, hex_isascii.
Qed.

Lemma verify_accepts_only_64_witness :
  length (Str.hstrip (normalize_sig (hs "sha256= " ++ hs Examples.rfc_hex))) = 64%nat
  /\ Str.isascii (Str.hstrip (normalize_sig (hs "sha256= " ++ hs Examples.rfc_hex))) = true.
Proof.
  apply (verify_accepts_only_64 (ustr "Jefe") Examples.rfc_body);
    [discriminate | vm_compute; reflexivity].
Defined.

(** X7: the digest text of line 34 is always 64 lower-case hexadecimal
    characters, so lower-casing it on line 35 changes nothing. *)
Theorem computed_digest_is_lower_hex (key raw_body : bytes) :
  let computed := Str.hex (Hmac.digest key raw_body) in
  Str.lower computed = computed
  /\ length computed = 64%nat
  /\ forallb (fun c => Str.contains_char c (hs "0123456789abcdef")) computed = true.
Proof.
  cbv zeta. split; [apply hex_lower|]. split.
  - rewrite hex_length, hmac_digest_length. reflexivity.
  - generalize (Hmac.digest key raw_body). intro bs.
    induction bs as [|b bs IH]; [reflexivity|].
    unfold Str.hex in *. cbn [flat_map]. rewrite forallb_app, IH, andb_true_r.
    destruct b; reflexivity.
Qed.

(** ** The configured secret *)

(** X8: the secret the process runs with never begins or ends with white
    space, and stripping it again changes nothing. *)
Theorem secret_is_stripped (env : option pystr) :
  (forall c r, load_HMAC_SECRET env = c :: r -> Str.isspace c = false)
  /\ (forall c r, rev (load_HMAC_SECRET env) = c :: r -> Str.isspace c = false)
  /\ load_HMAC_SECRET (Some (load_HMAC_SECRET env)) = load_HMAC_SECRET env.
Proof.
  unfold load_HMAC_SECRET. split; [|split].
  - intros c r. apply strip_head.
  - intros c r. apply strip_last.
  - apply strip_idem.
Qed.

(** X9: white space around the environment value (a trailing newline, say)
    does not change the secret. *)
Theorem secret_ignores_padding (w1 v w2 : pystr) :
  forallb Str.isspace w1 = true -> forallb Str.isspace w2 = true ->
  load_HMAC_SECRET (Some (w1 ++ v ++ w2)) = load_HMAC_SECRET (Some v).
Proof. intros H1 H2. unfold load_HMAC_SECRET. apply strip_padding; assumption. Qed.

Lemma secret_ignores_padding_witness :
  load_HMAC_SECRET (Some ([32; 9]%N ++ ustr "a secret" ++ [13; 10]%N))
  = load_HMAC_SECRET (Some (ustr "a secret"))
  /\ load_HMAC_SECRET (Some (ustr "a secret")) = ustr "a secret".
Proof.
  split; [apply secret_ignores_padding; reflexivity | reflexivity].
Defined.

(** ** The hardened handler: which request gets which status *)

(** The status, read off the stages in their order. *)
Lemma status_by_stage (py : interpreter) (cfg : config) (req : request) :
  http_status py cfg req =
  if negb (content_type_ok req) then 415
  else if too_large cfg req then 413
  else
    match verify_hmac_sha256 (HMAC_SECRET cfg) (data req) (received_signature req) with
    | Raise _ => 500
    | Ok false => 401
    | Ok true =>
        match Utf8.decode (data req) with
        | Raise _ => 500
        | Ok text =>
            match Json.loads py (or_empty_object text) with
            | Raise JSONDecodeError => 400
            | Raise _ => 500
            | Ok (JObject d) =>
                match snd (process_event d) with
                | Ok _ => 200
                | Raise _ => 500
                end
            | Ok _ => 400
            end
        end
    end.
Proof.
  unfold http_status.
  destruct (content_type_ok req) eqn:Hc; cbn [negb].
  2: { rewrite (webhook_content_type py cfg req Hc). reflexivity. }
  destruct (too_large cfg req) eqn:Hs.
  { rewrite (webhook_size py cfg req Hc Hs). reflexivity. }
  destruct (verify_hmac_sha256 (HMAC_SECRET cfg) (data req) (received_signature req))
    as [[|]|e] eqn:Hv.
  - destruct (Utf8.decode (data req)) as [text|e] eqn:Hd.
    + rewrite (webhook_parse py cfg req text Hc Hs Hv Hd).
      destruct (Json.loads py (or_empty_object text)) as [v|e].
      * destruct v; try reflexivity.
        destruct (process_event_outcome members) as [E|E]; rewrite E; reflexivity.
      * destruct e; reflexivity.
    + rewrite (webhook_decode_raises py cfg req e Hc Hs Hv Hd). reflexivity.
  - rewrite (webhook_signature py cfg req Hc Hs Hv). reflexivity.
  - rewrite (webhook_signature_raises py cfg req e Hc Hs Hv). reflexivity.
Qed.

(** X10: the answer is 415 for exactly the requests whose lower-cased
    Content-Type does not contain "application/json". *)
Theorem status_415_iff (py : interpreter) (cfg : config) (req : request) :
  http_status py cfg req = 415 <-> content_type_ok req = false.
Proof.
  split.
  - rewrite status_by_stage. destruct (content_type_ok req); [|reflexivity].
    cbn [negb].
    repeat match goal with
           | |- context [match ?x with _ => _ end] => destruct x
           end; discriminate.
  - intro H. rewrite status_by_stage, H. reflexivity.
Qed.


(** X12: the answer is 401 for exactly the requests that pass the
    content-type and size checks and for whose signature the verifier
    returns false. *)
Theorem status_401_iff (py : interpreter) (cfg : config) (req : request) :
  http_status py cfg req = 401
  <-> content_type_ok req = true /\ too_large cfg req = false
      /\ verify_hmac_sha256 (HMAC_SECRET cfg) (data req) (received_signature req)
         = Ok false.
Proof.
  split.
  - rewrite status_by_stage. destruct (content_type_ok req); cbn [negb]; [|discriminate].
    destruct (too_large cfg req); [discriminate|].
    destruct (verify_hmac_sha256 _ _ _) as [[|]|e]; [| auto | discriminate].
    repeat match goal with
           | |- context [match ?x with _ => _ end] => destruct x
           end; discriminate.
  - intros [Hc [Hs Hv]]. rewrite status_by_stage, Hc, Hs, Hv. reflexivity.
Qed.

(** X13: every request is answered with one of six statuses. *)
Theorem status_is_one_of_six (py : interpreter) (cfg : config) (req : request) :
  In (http_status py cfg req) [200; 400; 401; 413; 415; 500].
Proof.
  rewrite status_by_stage.
  repeat match goal with
         | |- context [match ?x with _ => _ end] => destruct x
         end; simpl; auto 10.
Qed.

(** X14: what the handler returns is either the acknowledgement, with
    status 200, or an error object with one of the four rejection statuses;
    it never returns 500 itself, that status comes only from an exception
    it does not catch. *)
Theorem response_shapes (py : interpreter) (cfg : config) (req : request) (resp : response) :
  snd (bitgo_webhook py cfg req) = Ok resp ->
  resp = acknowledged
  \/ exists text code, resp = error_response text code /\ In code [400; 401; 413; 415].
Proof.
  destruct (content_type_ok req) eqn:Hc.
  2: { rewrite (webhook_content_type py cfg req Hc). intro H. injection H as <-.
       right. do 2 eexists. split; [reflexivity | simpl; auto]. }
  destruct (too_large cfg req) eqn:Hs.
  { rewrite (webhook_size py cfg req Hc Hs). intro H. injection H as <-.
    right. do 2 eexists. split; [reflexivity | simpl; auto]. }
  destruct (verify_hmac_sha256 (HMAC_SECRET cfg) (data req) (received_signature req))
    as [[|]|e] eqn:Hv.
  - destruct (Utf8.decode (data req)) as [text|e] eqn:Hd.
    + rewrite (webhook_parse py cfg req text Hc Hs Hv Hd).
      destruct (Json.loads py (or_empty_object text)) as [v|e].
      * destruct v;
          try (intro H; injection H as <-; right; do 2 eexists;
               split; [reflexivity | simpl; auto]).
        destruct (process_event_outcome members) as [E|E]; rewrite E; intro H.
        -- injection H as <-. left. reflexivity.
        -- discriminate H.
      * destruct e; try discriminate.
        intro H. injection H as <-. right. do 2 eexists.
        split; [reflexivity | simpl; auto].
    + rewrite (webhook_decode_raises py cfg req e Hc Hs Hv Hd). discriminate.
  - rewrite (webhook_signature py cfg req Hc Hs Hv). intro H. injection H as <-.
    right. do 2 eexists. split; [reflexivity | simpl; auto].
  - rewrite (webhook_signature_raises py cfg req e Hc Hs Hv). discriminate.
Qed.

Lemma response_shapes_witness :
  error_response "Invalid signature" 401 = acknowledged
  \/ exists text code,
       error_response "Invalid signature" 401 = error_response text code
       /\ In code [400; 401; 413; 415].
Proof.
  apply (response_shapes Examples.cpython Examples.with_secret
           (Examples.post [("X-Signature-SHA256"%string, Examples.rfc_hex)]
                          (Examples.json_bytes "{}"))).
  vm_compute. reflexivity.
Defined.



(** ** The content-type check is a substring test *)

Lemma starts_with_app (sub t : hstr) : Str.starts_with sub (sub ++ t) = true.
Proof.
  induction sub as [|c sub IH]; [reflexivity|].
  cbn [app Str.starts_with]. rewrite Ascii.eqb_refl. exact IH.
Qed.

Lemma contains_app (sub p t : hstr) : Str.contains sub (p ++ sub ++ t) = true.
Proof.
  induction p as [|c p IH].
  - destruct sub as [|x sub]; [destruct t; reflexivity|].
    cbn [app]. cbn [Str.contains].
    rewrite (starts_with_app (x :: sub) t : Str.starts_with (x :: sub) (x :: sub ++ t) = true).
    reflexivity.
  - cbn [app Str.contains]. rewrite IH. apply orb_true_r.
Qed.

(** X16: a Content-Type passes the check as soon as "application/json", in
    any mixture of cases, occurs anywhere in it: parameters, but also
    other media types that merely contain these characters, are let
    through, and the request is not answered with 415. *)
Theorem content_type_substring (py : interpreter) (cfg : config) (req : request)
        (p x q : hstr) :
  Headers.get req "Content-Type" = Some (p ++ x ++ q) ->
  Str.lower x = hs "application/json" ->
  content_type_ok req = true /\ http_status py cfg req <> 415.
Proof.
  intros Hh Hx.
  assert (Hc : content_type_ok req = true).
  { unfold content_type_ok, Headers.get_default. rewrite Hh. cbv zeta.
    unfold Str.lower in *. rewrite !map_app, Hx. apply contains_app. }
  split; [exact Hc|]. intro H. apply status_415_iff in H. congruence.
Qed.

Lemma content_type_substring_witness :
  content_type_ok (Examples.post_as "text/x-Application/JSONP-ish" [] []) = true
  /\ http_status Examples.cpython Examples.no_secret
                 (Examples.post_as "text/x-Application/JSONP-ish" [] []) <> 415.
Proof.
  apply (content_type_substring _ _ _ (hs "text/x-") (hs "Application/JSON") (hs "P-ish"));
    reflexivity.
Defined.

(** ** Classifying the event *)

(** X17: each processed event leaves its type and state in the log first,
    also when the handler then fails; an acknowledged event leaves exactly
    one more record. *)
Theorem process_event_log (d : list (pystr * json)) :
  let received :=
    (INFO, Webhook_received (Py.dict_get d (ustr "type") JNull)
                            (Py.dict_get d (ustr "state") JNull)) in
  (exists m, process_event d = ([received; (INFO, m)], Ok acknowledged))
  \/ process_event d = ([received], Raise AttributeError).
Proof.
  cbv zeta. unfold process_event. cbv zeta.
  destruct (Py.eq_str _ _ && Py.eq_str _ _).
  - match goal with
    | |- context [value_get ?v _] => destruct v
    end; first [right; reflexivity | left; eexists; reflexivity].
  - repeat match goal with
           | |- context [if ?c then _ else _] => destruct c
           end; left; eexists; reflexivity.
Qed.

(** X18: the handler fails while classifying exactly when the event is a
    confirmed transfer whose [value] is present, truthy and not an
    object. *)
Theorem process_event_raises_iff (d : list (pystr * json)) :
  snd (process_event d) = Raise AttributeError
  <-> Py.eq_str (Py.dict_get d (ustr "type") JNull) (ustr "transfer") = true
      /\ Py.eq_str (Py.dict_get d (ustr "state") JNull) (ustr "confirmed") = true
      /\ exists v, Py.dict_lookup (ustr "value") d = Some v
                   /\ Py.truthy v = true /\ forall m, v <> JObject m.
Proof.
  split.
  - intro H.
    destruct (Py.eq_str (Py.dict_get d (ustr "type") JNull) (ustr "transfer")
              && Py.eq_str (Py.dict_get d (ustr "state") JNull) (ustr "confirmed")) eqn:E.
    + apply andb_true_iff in E. destruct E as [E1 E2]. split; [exact E1|]. split; [exact E2|].
      destruct (Py.dict_lookup (ustr "value") d) as [v|] eqn:El.
      * exists v. split; [reflexivity|].
        destruct (Py.truthy v) eqn:Et.
        -- split; [reflexivity|]. intros m ->.
           rewrite process_event_deposit in H; [discriminate H|].
           intros v' Hv'. rewrite El in Hv'. injection Hv' as <-. right. eexists. reflexivity.
        -- rewrite process_event_deposit in H; [discriminate H|].
           intros v' Hv'. rewrite El in Hv'. injection Hv' as <-. left. exact Et.
      * rewrite process_event_deposit in H; [discriminate H|].
        intros v' Hv'. rewrite El in Hv'. discriminate Hv'.
    + rewrite (process_event_not_deposit d E) in H. discriminate H.
  - intros [E1 [E2 [v [El [Et Hno]]]]].
    unfold process_event. cbv zeta. rewrite E1, E2. cbn [andb].
    assert (Ev : Py.dict_get d (ustr "value") (JObject []) = v)
      by (unfold Py.dict_get; rewrite El; reflexivity).
    rewrite !Ev, Et.
    destruct v; try reflexivity. exfalso. exact (Hno _ eq_refl).
Qed.

(** X19: a transfer whose state is not the text "confirmed" (pending,
    failed, missing) is not treated as a transfer at all: it is logged as
    an event of another type and acknowledged. *)
Theorem unconfirmed_transfer_is_other (d : list (pystr * json)) :
  Py.dict_get d (ustr "type") JNull = JString (ustr "transfer") ->
  Py.eq_str (Py.dict_get d (ustr "state") JNull) (ustr "confirmed") = false ->
  process_event d
  = ([(INFO, Webhook_received (JString (ustr "transfer"))
                              (Py.dict_get d (ustr "state") JNull));
      (INFO, Other_webhook_type (JString (ustr "transfer")))],
     Ok acknowledged).
Proof.
  intros Ht Hs. unfold process_event. cbv zeta. rewrite Ht, Hs. reflexivity.
Qed.

Lemma unconfirmed_transfer_is_other_witness :
  process_event [(ustr "type", JString (ustr "transfer"));
                 (ustr "state", JString (ustr "pending"))]
  = ([(INFO, Webhook_received (JString (ustr "transfer")) (JString (ustr "pending")));
      (INFO, Other_webhook_type (JString (ustr "transfer")))],
     Ok acknowledged).
Proof.
  apply (unconfirmed_transfer_is_other
           [(ustr "type", JString (ustr "transfer"));
            (ustr "state", JString (ustr "pending"))]); reflexivity.
Defined.

(** ** The unhardened handler of [main.py] *)

(** Run the handler of [main.py] as far as its inputs are known. *)
Ltac main_steps :=
  cbn [Main.get_json Main.raw_data Main.get Main.bind Main.ret Main.say Main.raise app].

Section MainHandler.

Variable dumps_raises : json -> bool.

Lemma main_object_status (raw : pystr) (d : list (pystr * json)) :
  Main.http_status dumps_raises (Main.Request raw (Main.Returns (JObject d)))
  = if dumps_raises (JObject d) then 500
    else if is_deposit d then
      match Py.dict_get d (ustr "value") (JObject []) with
      | JObject _ => 200
      | _ => 500
      end
    else 200.
Proof.
  unfold Main.http_status, Main.bitgo_webhook, Main.process, Main.classify, is_deposit.
  main_steps.
  destruct (dumps_raises (JObject d)); [reflexivity|].
  destruct (Py.eq_str _ _ && Py.eq_str _ _).
  - destruct (Py.dict_get d (ustr "value") (JObject [])); reflexivity.
  - repeat match goal with
           | |- context [if ?c then _ else _] => destruct c
           end; reflexivity.
Qed.

Lemma main_status (req : Main.request) :
  Main.http_status dumps_raises req
  = match Main.get_json req with
    | Main.Raises => 400
    | Main.Returns JNull => 400
    | Main.Returns (JObject d) =>
        Main.http_status dumps_raises (Main.Request (Main.raw_data req)
                                                    (Main.Returns (JObject d)))
    | Main.Returns _ => 500
    end.
Proof.
  destruct req as [raw [v|]]; [|reflexivity].
  destruct v; try reflexivity;
    unfold Main.http_status, Main.bitgo_webhook, Main.process;
    main_steps;
    match goal with
    | |- context [dumps_raises ?v] => destruct (dumps_raises v); reflexivity
    end.
Qed.

(** X20: [main.py] answers 400 for exactly the requests whose [get_json]
    raises or returns [None]; the JSON text null is such a request. *)
Theorem main_status_400_iff (req : Main.request) :
  Main.http_status dumps_raises req = 400
  <-> Main.get_json req = Main.Raises \/ Main.get_json req = Main.Returns JNull.
Proof.
  rewrite main_status. destruct (Main.get_json req) as [v|].
  - destruct v; try (split; [discriminate | intros [H|H]; discriminate H]).
    + split; auto.
    + rewrite main_object_status. split; [|intros [H|H]; discriminate H].
      repeat match goal with
             | |- context [match ?x with _ => _ end] => destruct x
             end; discriminate.
  - split; auto.
Qed.

(** X21: JSON that is valid but not an object (an array, a number, a
    string, true or false) takes [main.py] to its catch-all: it is answered
    with 500 "Internal server error", where [app.py] answers 400. *)
Theorem main_non_object_500 (req : Main.request) (v : json) :
  Main.get_json req = Main.Returns v -> v <> JNull -> (forall d, v <> JObject d) ->
  snd (Main.bitgo_webhook dumps_raises req)
  = Ok (error_response "Internal server error" 500).
Proof.
  intros Hg Hn Ho. destruct req as [raw g]. cbn [Main.get_json] in Hg. subst g.
  unfold Main.bitgo_webhook, Main.process. main_steps.
  destruct v; try contradiction; try (exfalso; exact (Ho _ eq_refl));
    match goal with
    | |- context [dumps_raises ?v] => destruct (dumps_raises v); reflexivity
    end.
Qed.

(** X22: [main.py] answers 200 for exactly the requests whose body is an
    object that [json.dumps] can print and that is not a confirmed transfer,
    or is one whose [value] is missing or an object.  A [value] of null is
    not tolerated here. *)
Theorem main_status_200_iff (req : Main.request) :
  Main.http_status dumps_raises req = 200
  <-> exists d,
        Main.get_json req = Main.Returns (JObject d)
        /\ dumps_raises (JObject d) = false
        /\ (is_deposit d = false
            \/ exists m, Py.dict_get d (ustr "value") (JObject []) = JObject m).
Proof.
  rewrite main_status. destruct (Main.get_json req) as [v|].
  2: { split; [discriminate | intros [d [H _]]; discriminate H]. }
  destruct v; try (split; [discriminate | intros [d [H _]]; discriminate H]).
  rewrite main_object_status. split.
  - intro H. exists members. split; [reflexivity|].
    destruct (dumps_raises (JObject members)); [discriminate H|]. split; [reflexivity|].
    destruct (is_deposit members); [|left; reflexivity].
    right. destruct (Py.dict_get members (ustr "value") (JObject []));
      try discriminate H. eexists. reflexivity.
  - intros [d [Hd [Hp Hv]]]. injection Hd as <-. rewrite Hp.
    destruct Hv as [-> | [m ->]]; [reflexivity|].
    destruct (is_deposit members); reflexivity.
Qed.

(** X23: [main.py] answers every request itself: it always returns a
    response, with status 200, 400 or 500. *)
Theorem main_always_responds (req : Main.request) :
  exists resp,
    snd (Main.bitgo_webhook dumps_raises req) = Ok resp
    /\ In (status resp) [200; 400; 500].
Proof.
  destruct req as [raw [v|]].
  2: { eexists. split; [reflexivity | simpl; auto]. }
  unfold Main.bitgo_webhook, Main.process, Main.classify.
  main_steps.
  destruct v; try (main_steps;
    match goal with
    | |- context [dumps_raises ?v] =>
        destruct (dumps_raises v); eexists; (split; [reflexivity | simpl; auto])
    end).
  - eexists. split; [reflexivity | simpl; auto].
  - main_steps. destruct (dumps_raises (JObject members)).
    + eexists. split; [reflexivity | simpl; auto].
    + destruct (Py.eq_str _ _ && Py.eq_str _ _).
      * destruct (Py.dict_get members (ustr "value") (JObject []));
          eexists; (split; [reflexivity | simpl; auto]).
      * repeat match goal with
               | |- context [if ?c then _ else _] => destruct c
               end; eexists; (split; [reflexivity | simpl; auto]).
Qed.


(** X25: whatever object [main.py] acknowledges, the event step of [app.py]
    acknowledges too: the hardened handler is at least as tolerant of the
    event's fields as the unhardened one. *)
Theorem app_tolerates_what_main_accepts (raw : pystr) (d : list (pystr * json)) :
  Main.http_status dumps_raises (Main.Request raw (Main.Returns (JObject d))) = 200 ->
  snd (process_event d) = Ok acknowledged.
Proof.
  rewrite main_object_status. intro H.
  destruct (dumps_raises (JObject d)); [discriminate H|].
  destruct (is_deposit d) eqn:E.
  - apply process_event_deposit. intros v Hv. right.
    unfold Py.dict_get in H. rewrite Hv in H.
    destruct v; try discriminate H. eexists. reflexivity.
  - apply process_event_not_deposit. exact E.
Qed.

End MainHandler.

Lemma main_non_object_500_witness :
  snd (Main.bitgo_webhook (fun _ => false)
         (Main.Request (ustr "[1,2,3]") (Main.Returns (JArray [JInt 1; JInt 2; JInt 3]))))
  = Ok (error_response "Internal server error" 500).
Proof.
  apply (main_non_object_500 _ _ (JArray [JInt 1; JInt 2; JInt 3]));
    [reflexivity | discriminate | discriminate].
Defined.

Lemma app_tolerates_what_main_accepts_witness :
  snd (process_event [(ustr "type", JString (ustr "transfer"));
                      (ustr "state", JString (ustr "confirmed"));
                      (ustr "value", JObject [(ustr "amount", JString (ustr "1.5"))])])
  = Ok acknowledged.
Proof.
  apply (app_tolerates_what_main_accepts (fun _ => false) (ustr "raw")). reflexivity.
Defined.

(** The converse fails: a confirmed transfer whose [value] is null is
    acknowledged by [app.py] and answered with 500 by [main.py]. *)
Example null_value_divides_the_handlers :
  let d := [(ustr "type", JString (ustr "transfer"));
            (ustr "state", JString (ustr "confirmed"));
            (ustr "value", JNull)] in
  snd (process_event d) = Ok acknowledged
  /\ Main.http_status (fun _ => false) (Main.Request [] (Main.Returns (JObject d))) = 500.
Proof. split; reflexivity. Qed.

(** ** The hardened handler: 400 and 200 *)


(** X27: the answer is 200 for exactly the requests that pass the three
    checks and whose body is an object (the empty body counting as an empty
    one) that is not a confirmed transfer with a truthy [value] that is not
    an object. *)
Theorem status_200_iff (py : interpreter) (cfg : config) (req : request) :
  http_status py cfg req = 200
  <-> content_type_ok req = true /\ too_large cfg req = false
      /\ verify_hmac_sha256 (HMAC_SECRET cfg) (data req) (received_signature req) = Ok true
      /\ exists text d,
           Utf8.decode (data req) = Ok text
           /\ Json.loads py (or_empty_object text) = Ok (JObject d)
           /\ snd (process_event d) = Ok acknowledged.
Proof.
  rewrite status_by_stage. split.
  - destruct (content_type_ok req); cbn [negb]; [|discriminate].
    destruct (too_large cfg req); [discriminate|].
    destruct (verify_hmac_sha256 _ _ _) as [[|]|e]; try discriminate.
    destruct (Utf8.decode (data req)) as [text|e] eqn:Hd; [|discriminate].
    destruct (Json.loads py (or_empty_object text)) as [v|e] eqn:Hl;
      [|destruct e; discriminate].
    destruct v; try discriminate.
    intro H. split; [reflexivity|]. split; [reflexivity|]. split; [reflexivity|].
    exists text, members. split; [reflexivity|]. split; [exact Hl|].
    destruct (process_event_outcome members) as [E|E]; [exact E|].
    rewrite E in H. discriminate H.
  - intros [Hc [Hs [Hv [text [d [Hd [Hl Hp]]]]]]].
    rewrite Hc, Hs, Hv, Hd, Hl, Hp. reflexivity.
Qed.

(** ** Bodies that are almost JSON *)

Lemma decode_ascii (bs : bytes) :
  forallb (fun b => (Byte.to_N b <? 128)%N) bs = true ->
  Utf8.decode_utf8 bs = Some (map Byte.to_N bs).
Proof.
  induction bs as [|b bs IH]; [reflexivity|]. intro H. cbn [forallb] in H.
  apply andb_true_iff in H. destruct H as [Hb Hbs].
  cbn [Utf8.decode_utf8 map]. cbv zeta. rewrite Hb, (IH Hbs). reflexivity.
Qed.

Lemma skip_ws_all (s : pystr) : forallb Json.is_ws s = true -> Json.skip_ws s = [].
Proof.
  induction s as [|c s IH]; [reflexivity|]. intro H. cbn [forallb] in H.
  apply andb_true_iff in H. destruct H as [Hc Hs].
  cbn [Json.skip_ws]. rewrite Hc. apply IH, Hs.
Qed.

Lemma loads_blank (py : interpreter) (s : pystr) :
  forallb Json.is_ws s = true -> Json.loads py s = Raise JSONDecodeError.
Proof.
  intro H. unfold Json.loads. rewrite (skip_ws_all s H).
  destruct s as [|c s]; [reflexivity|].
  assert (Hc : c <> 0xFEFF%N).
  { cbn [forallb] in H. apply andb_true_iff in H. destruct H as [Hc _].
    intros ->. discriminate Hc. }
  assert (E : Json.scan_once (int_max_str_digits py) (Json.fuel_for (c :: s))
                             (recursion_headroom py) [] = Json.Invalid).
  { unfold Json.fuel_for. rewrite Nat.add_1_r. reflexivity. }
  rewrite E.
  repeat match goal with
         | |- context [match ?x with _ => _ end] => destruct x; try reflexivity
         end.
Qed.

(** X28: a body of white space only is rejected with 400, although the
    empty body is accepted. *)
Theorem blank_body_400 (py : interpreter) (cfg : config) (req : request) :
  content_type_ok req = true -> too_large cfg req = false ->
  verify_hmac_sha256 (HMAC_SECRET cfg) (data req) (received_signature req) = Ok true ->
  data req <> [] -> forallb blank_byte (data req) = true ->
  bitgo_webhook py cfg req = invalid_json.
Proof.
  intros Hc Hs Hv Hne Hb.
  assert (Hd : Utf8.decode (data req) = Ok (map Byte.to_N (data req))).
  { unfold Utf8.decode. rewrite decode_ascii; [reflexivity|].
    rewrite forallb_forall in *. intros b Hin. specialize (Hb b Hin).
    destruct b; first [reflexivity | discriminate Hb]. }
  rewrite (webhook_parse py cfg req _ Hc Hs Hv Hd).
  rewrite (decode_nonempty _ _ Hne Hd), loads_blank; [reflexivity|].
  rewrite forallb_forall in *. intros c Hin. apply in_map_iff in Hin.
  destruct Hin as [b [<- Hin]]. specialize (Hb b Hin).
  destruct b; first [reflexivity | discriminate Hb].
Qed.

Lemma blank_body_400_witness :
  bitgo_webhook Examples.cpython Examples.no_secret (Examples.post [] [x20; x0a])
  = invalid_json.
Proof. apply blank_body_400; [reflexivity .. | discriminate | reflexivity]. Defined.

(** X29: a body that begins with the UTF-8 byte order mark is rejected
    with 400, whatever follows it. *)
Theorem bom_body_400 (py : interpreter) (cfg : config) (req : request)
        (rest : bytes) (text : pystr) :
  content_type_ok req = true -> too_large cfg req = false ->
  verify_hmac_sha256 (HMAC_SECRET cfg) (data req) (received_signature req) = Ok true ->
  data req = xef :: xbb :: xbf :: rest ->
  Utf8.decode rest = Ok text ->
  bitgo_webhook py cfg req = invalid_json.
Proof.
  intros Hc Hs Hv Hb Hr.
  assert (Hd : Utf8.decode (data req) = Ok (0xFEFF%N :: text)).
  { rewrite Hb. unfold Utf8.decode in *. cbn [Utf8.decode_utf8]. cbv zeta.
    change (Byte.to_N xef) with 0xEF%N. change (Byte.to_N xbb) with 0xBB%N.
    cbn [N.ltb N.leb N.eqb N.compare Pos.compare Pos.compare_cont Pos.eqb
         andb orb negb].
    destruct (Utf8.decode_utf8 rest) as [t|]; [|discriminate Hr].
    injection Hr as ->. reflexivity. }
  rewrite (webhook_parse py cfg req _ Hc Hs Hv Hd). reflexivity.
Qed.

Lemma bom_body_400_witness :
  bitgo_webhook Examples.cpython Examples.no_secret
                (Examples.post [] (xef :: xbb :: xbf :: Examples.json_bytes "{}"))
  = invalid_json.
Proof.
  apply (bom_body_400 _ _ _ (Examples.json_bytes "{}") (ustr "{}")); reflexivity.
Defined.
